(** * zh: the ZenHub command-line client (main.go)

    A shallow embedding of [main.go]: the status-code mapping, the
    authenticating transport, the [issue mv] command and the part of [main]
    that resolves the flag defaults, with the functions of Go's standard
    library that they call ([strings.TrimSpace], [strconv.Atoi],
    [fmt.Sprintf]'s verbs, [json.Marshal], [http.Client.Post]) modelled next
    to them.

    Go strings are byte strings: [string] with one [ascii] per byte. *)

From Stdlib Require Import ZArith NArith Lia Ascii String DecimalString.
From stdpp Require Import base option list gmap strings.

Local Open Scope string_scope.
Local Open Scope Z_scope.

(** ** Bytes and strings *)

Module Str.

Definition code (c : ascii) : N := N_of_ascii c.

Definition chr (n : N) : ascii := ascii_of_N n.

Fixpoint all (p : ascii -> bool) (s : string) : bool :=
  match s with
  | EmptyString => true
  | String c r => p c && all p r
  end.

(** The last byte of a string, when there is one. *)
Fixpoint last (s : string) : option ascii :=
  match s with
  | EmptyString => None
  | String c EmptyString => Some c
  | String _ r => last r
  end.

End Str.

(** ** Machine integers

    Go's [int] and [uint] are 32 or 64 bits wide, by platform. *)

Inductive IntSize := Int32 | Int64.

Definition bits (sz : IntSize) : Z :=
  match sz with Int32 => 32 | Int64 => 64 end.

Definition minInt (sz : IntSize) : Z := - 2 ^ (bits sz - 1).
Definition maxInt (sz : IntSize) : Z := 2 ^ (bits sz - 1) - 1.

(** The conversion [uint(n)] of an [int]: the same bits, read unsigned. *)
Definition uint_of_int (sz : IntSize) (n : Z) : Z := n mod 2 ^ bits sz.

(** ** package strings *)

(** [unicode.IsSpace] on the runes below U+0080:
    '\t', '\n', '\v', '\f', '\r' and ' '. *)
Definition asciiSpace (c : ascii) : bool :=
  let b := Str.code c in
  ((9 <=? b) && (b <=? 13) || (b =? 32))%N.

(** The two-byte UTF-8 encodings of white space:
    U+0085 (C2 85) and U+00A0 (C2 A0). *)
Definition space2 (c1 c2 : ascii) : bool :=
  let b1 := Str.code c1 in
  let b2 := Str.code c2 in
  ((b1 =? 194) && ((b2 =? 133) || (b2 =? 160)))%N.

(** The three-byte UTF-8 encodings of white space: U+1680 (E1 9A 80),
    U+2000..U+200A (E2 80 80..8A), U+2028, U+2029 (E2 80 A8, A9),
    U+202F (E2 80 AF), U+205F (E2 81 9F) and U+3000 (E3 80 80). *)
Definition space3 (c1 c2 c3 : ascii) : bool :=
  let b1 := Str.code c1 in
  let b2 := Str.code c2 in
  let b3 := Str.code c3 in
  ((b1 =? 225) && (b2 =? 154) && (b3 =? 128)
   || (b1 =? 226) && (b2 =? 128)
      && ((128 <=? b3) && (b3 <=? 138) || (b3 =? 168) || (b3 =? 169) || (b3 =? 175))
   || (b1 =? 226) && (b2 =? 129) && (b3 =? 159)
   || (b1 =? 227) && (b2 =? 128) && (b3 =? 128))%N.

(** [strings.TrimLeftFunc(s, unicode.IsSpace)]: drops leading white-space
    runes. A byte that starts no white-space encoding ends the scan. *)
Fixpoint TrimLeftSpace (s : string) : string :=
  match s with
  | EmptyString => EmptyString
  | String c1 r1 =>
    if asciiSpace c1 then TrimLeftSpace r1 else
    match r1 with
    | EmptyString => s
    | String c2 r2 =>
      if space2 c1 c2 then TrimLeftSpace r2 else
      match r2 with
      | EmptyString => s
      | String c3 r3 => if space3 c1 c2 c3 then TrimLeftSpace r3 else s
      end
    end
  end.

(** The same scan over the reversed string: [r] holds the bytes last to
    first, so a white-space encoding shows up backwards. *)
Fixpoint trimRev (r : string) : string :=
  match r with
  | EmptyString => EmptyString
  | String c1 r1 =>
    if asciiSpace c1 then trimRev r1 else
    match r1 with
    | EmptyString => r
    | String c2 r2 =>
      if space2 c2 c1 then trimRev r2 else
      match r2 with
      | EmptyString => r
      | String c3 r3 => if space3 c3 c2 c1 then trimRev r3 else r
      end
    end
  end.

(** [strings.TrimRightFunc(s, unicode.IsSpace)]. *)
Definition TrimRightSpace (s : string) : string :=
  String.rev (trimRev (String.rev s)).

(** [strings.TrimSpace]: white space, as Unicode defines it, removed from
    both ends. *)
Definition TrimSpace (s : string) : string :=
  TrimRightSpace (TrimLeftSpace s).

(** ** package strconv *)

Definition digit (c : ascii) : option Z :=
  let b := Str.code c in
  if ((48 <=? b) && (b <=? 57))%N then Some (Z.of_N b - 48) else None.

(** How the scan of the digits ends. *)
Inductive Scan :=
| Value (n : Z)
| Syntax
| Range.

(** The loop of [strconv.ParseUint] in base 10: the value of a run of decimal
    digits. It stops at the first byte that is no digit, with a syntax
    error, or at the first digit that takes the value above [maxVal], with a
    range error, whichever comes first. *)
Fixpoint digits (maxVal acc : Z) (s : string) : Scan :=
  match s with
  | EmptyString => Value acc
  | String c r =>
    match digit c with
    | None => Syntax
    | Some d =>
      let n := acc * 10 + d in
      if maxVal <? n then Range else digits maxVal n r
    end
  end.

(** [*strconv.NumError]: the text that failed to parse, and why. *)
Inductive NumError :=
| ErrSyntax (num : string)
| ErrRange (num : string).

(** [strconv.Atoi]: an optional sign, then one or more decimal digits, the
    value within [int]; base 10 takes no underscore and no prefix. The
    digits are scanned as an unsigned number of the width of [int], which
    then has to fit under its sign. *)
Definition Atoi (sz : IntSize) (s : string) : Z + NumError :=
  match s with
  | EmptyString => inr (ErrSyntax s)
  | String c r =>
    let '(neg, body) :=
      if Ascii.eqb c "-"%char then (true, r)
      else if Ascii.eqb c "+"%char then (false, r)
      else (false, s) in
    match body with
    | EmptyString => inr (ErrSyntax s)
    | _ =>
      match digits (2 ^ bits sz - 1) 0 body with
      | Syntax => inr (ErrSyntax s)
      | Range => inr (ErrRange s)
      | Value un =>
        let cutoff := 2 ^ (bits sz - 1) in
        if negb neg && (cutoff <=? un) then inr (ErrRange s)
        else if neg && (cutoff <? un) then inr (ErrRange s)
        else inl (if neg then - un else un)
      end
    end
  end.

(** ** package fmt *)

(** The verb [%d] on an [int] or a [uint]: decimal, with a minus sign when
    negative. *)
Definition fmt_d (n : Z) : string := NilZero.string_of_int (Z.to_int n).

(** ** package encoding/json *)

Definition dquote : string := String (Str.chr 34) EmptyString.
Definition backslash : string := String (Str.chr 92) EmptyString.

(** A string between double quotes. *)
Definition quoted (s : string) : string := dquote +:+ s +:+ dquote.

Definition hex (n : N) : ascii :=
  if (n <? 10)%N then Str.chr (48 + n) else Str.chr (87 + n).

(** [htmlSafeSet]: the bytes below 0x80 that are copied as they are. The
    control bytes, the double quote, the backslash and, since [json.Marshal]
    escapes HTML, the ampersand and the angle brackets are not. *)
Definition htmlSafe (c : ascii) : bool :=
  let b := Str.code c in
  ((32 <=? b) && (b <? 128)
   && negb ((b =? 34) || (b =? 38) || (b =? 60) || (b =? 62) || (b =? 92)))%N.

(** The escape of a byte below 0x80 that is not in [htmlSafeSet]: a short
    escape for the quote, the backslash, '\b', '\f', '\n', '\r' and '\t'
    (Go 1.22 and later; earlier releases write '\b' and '\f' in the long
    form), and the long form with four hexadecimal digits for the rest. *)
Definition escapeByte (c : ascii) : string :=
  let b := Str.code c in
  if ((b =? 92) || (b =? 34))%N then backslash +:+ String c EmptyString
  else if (b =? 8)%N then backslash +:+ "b"
  else if (b =? 12)%N then backslash +:+ "f"
  else if (b =? 10)%N then backslash +:+ "n"
  else if (b =? 13)%N then backslash +:+ "r"
  else if (b =? 9)%N then backslash +:+ "t"
  else backslash +:+ "u00"
       +:+ String (hex (N.shiftr b 4)) (String (hex (N.land b 15)) EmptyString).

(** What is written for a byte that starts no well-formed UTF-8 encoding:
    the escape of U+FFFD. *)
Definition replacement : string := backslash +:+ "ufffd".

(** A continuation byte of UTF-8. *)
Definition cont (c : ascii) : bool :=
  let b := Str.code c in ((128 <=? b) && (b <=? 191))%N.

(** Well-formed encodings of two, three and four bytes, as
    [utf8.DecodeRuneInString] accepts them: no overlong form, no surrogate,
    nothing above U+10FFFF. *)
Definition utf8_2 (c1 c2 : ascii) : bool :=
  let b1 := Str.code c1 in
  ((194 <=? b1) && (b1 <=? 223))%N && cont c2.

Definition utf8_3 (c1 c2 c3 : ascii) : bool :=
  let b1 := Str.code c1 in
  let b2 := Str.code c2 in
  ((b1 =? 224) && (160 <=? b2) && (b2 <=? 191)
   || (225 <=? b1) && (b1 <=? 236) && (128 <=? b2) && (b2 <=? 191)
   || (b1 =? 237) && (128 <=? b2) && (b2 <=? 159)
   || (238 <=? b1) && (b1 <=? 239) && (128 <=? b2) && (b2 <=? 191))%N
  && cont c3.

Definition utf8_4 (c1 c2 c3 c4 : ascii) : bool :=
  let b1 := Str.code c1 in
  let b2 := Str.code c2 in
  ((b1 =? 240) && (144 <=? b2) && (b2 <=? 191)
   || (241 <=? b1) && (b1 <=? 243) && (128 <=? b2) && (b2 <=? 191)
   || (b1 =? 244) && (128 <=? b2) && (b2 <=? 143))%N
  && cont c3 && cont c4.

(** U+2028 and U+2029 (E2 80 A8, E2 80 A9) are always escaped. *)
Definition lineSeparator (c1 c2 c3 : ascii) : option string :=
  let b3 := Str.code c3 in
  if ((Str.code c1 =? 226) && (Str.code c2 =? 128)
      && ((b3 =? 168) || (b3 =? 169)))%N
  then Some (backslash +:+ "u202" +:+ String (hex (N.land b3 15)) EmptyString)
  else None.

(** The inside of a JSON string literal, [appendString] of encode.go without
    the two quotes it puts around. *)
Fixpoint escapeString (s : string) : string :=
  match s with
  | EmptyString => EmptyString
  | String c1 r1 =>
    if (Str.code c1 <? 128)%N then
      (if htmlSafe c1 then String c1 EmptyString else escapeByte c1)
      +:+ escapeString r1
    else
    match r1 with
    | EmptyString => replacement
    | String c2 r2 =>
      if utf8_2 c1 c2 then String c1 (String c2 (escapeString r2)) else
      match r2 with
      | EmptyString => replacement +:+ escapeString r1
      | String c3 r3 =>
        if utf8_3 c1 c2 c3 then
          match lineSeparator c1 c2 c3 with
          | Some e => e +:+ escapeString r3
          | None => String c1 (String c2 (String c3 (escapeString r3)))
          end
        else
        match r3 with
        | EmptyString => replacement +:+ escapeString r1
        | String c4 r4 =>
          if utf8_4 c1 c2 c3 c4
          then String c1 (String c2 (String c3 (String c4 (escapeString r4))))
          else replacement +:+ escapeString r1
        end
      end
    end
  end.

(** The JSON encoding of a Go string. *)
Definition json_string (s : string) : string := quoted (escapeString s).

(** ** The package's variables *)

Definition DefaultBaseURL : string := "https://api.zenhub.com".
Definition AuthenticationHeader : string := "X-Authentication-Token".
Definition ZenHubTokenEnvVar : string := "ZENHUB_TOKEN".
Definition ZenHubWorkspaceIDEnvVar : string := "ZENHUB_WORKSPACE_ID".
Definition ZenHubRepositoryIDEnvVar : string := "ZENHUB_REPOSITORY_ID".
Definition ZenHubLogLevelEnvVar : string := "ZENHUB_LOG_LEVEL".

(** [MoveIssueRequest] is the request body of a request to move an issue. *)
Record MoveIssueRequest := {
  PipelineID : string;   (* json: pipeline_id *)
  Position : string      (* json: position *)
}.

(** [json.Marshal] of a [MoveIssueRequest]: the two fields in the order of
    the struct, under the names of their tags. Encoding a struct of strings
    cannot fail: the error is always nil. *)
Definition json_Marshal (r : MoveIssueRequest) : string * option string :=
  ("{" +:+ quoted "pipeline_id" +:+ ":" +:+ json_string (PipelineID r)
   +:+ "," +:+ quoted "position" +:+ ":" +:+ json_string (Position r) +:+ "}",
   None).

(** The verb [%v] on a [MoveIssueRequest]. *)
Definition fmt_v (r : MoveIssueRequest) : string :=
  "{" +:+ PipelineID r +:+ " " +:+ Position r +:+ "}".

(** ** Errors

    Every error of the program is made by one [fmt.Errorf], or comes out of
    [http.Client.Post]. An error value is the place that made it with the
    values it was formatted from; [Error] is its text. *)

Inductive error :=
| BadArgCount (len : nat)                      (* MoveIssueCommand, arguments *)
| BadIssueID (first : string)                  (* MoveIssueCommand, Atoi *)
| MissingToken                                 (* GetZenHubToken *)
| BadWorkspaceID (workspaceID : string)        (* MoveIssueCommand *)
| BadRepositoryID (repositoryID : Z)           (* MoveIssueCommand *)
| MarshalFailed (request : MoveIssueRequest) (cause : string)
| URLError (op url cause : string)             (* net/url's Error, from Post *)
| InvalidToken                                 (* ErrorFromStatusCode, 401 *)
| LimitReached                                 (* ErrorFromStatusCode, 403 *)
| EndpointNotFound                             (* ErrorFromStatusCode, 404 *)
| UnknownStatus (statusCode : Z)               (* ErrorFromStatusCode, default *)
| MoveFailed (err : error).                    (* MoveIssueCommand, wrapping *)

Fixpoint Error (e : error) : string :=
  match e with
  | BadArgCount len =>
    "expected exactly two argument, the issue ID and the pipeline ID. Received "
    +:+ fmt_d (Z.of_nat len)
  | BadIssueID first => "expected issue ID to be an int, got " +:+ first
  | MissingToken => "expected environment variable " +:+ ZenHubTokenEnvVar
  | BadWorkspaceID workspaceID => "invalid workpace-id value of " +:+ workspaceID
  | BadRepositoryID repositoryID =>
    "invalid repository-id value of " +:+ fmt_d repositoryID
  | MarshalFailed request cause =>
    "failed to convert move issue request " +:+ fmt_v request
    +:+ " to JSON: " +:+ cause
  | URLError op url cause => op +:+ " " +:+ quoted url +:+ ": " +:+ cause
  | InvalidToken =>
    "authentication token is not valid. Check that " +:+ ZenHubTokenEnvVar
    +:+ " is set correctly"
  | LimitReached => "ZenHub API request limit reached. Please try again later"
  | EndpointNotFound =>
    "endpoint not found. This most likely is a bug in zh, please report it"
  | UnknownStatus statusCode =>
    "unknown status code " +:+ fmt_d statusCode
    +:+ ". This most likely is a bug in zh, please report it"
  | MoveFailed err => "failed to move issue between pipelines: " +:+ Error err
  end.

(** [errors.Unwrap]: the error a [%w] wrapped. *)
Definition Unwrap (e : error) : option error :=
  match e with
  | MoveFailed err => Some err
  | _ => None
  end.

(** ** package net/http *)

(** [http.Request], as far as a transport reads it. The header is a map
    from a key to its values, never nil: [http.Client] makes one for every
    request it sends. *)
Record Request := {
  Method : string;
  URL : string;
  Header : gmap string (list string);
  Body : string
}.

Record Response := { StatusCode : Z }.

(** [Header.Add]: appends the value to the values of the key. net/http first
    puts the key in its canonical form; the one key the program adds,
    [AuthenticationHeader], is in that form already. *)
Definition Header_Add (h : gmap string (list string)) (key value : string)
  : gmap string (list string) :=
  <[key := (default [] (h !! key) ++ [value])%list]> h.

(** [Header.Set]: the value becomes the only one of the key. *)
Definition Header_Set (h : gmap string (list string)) (key value : string)
  : gmap string (list string) :=
  <[key := [value]]> h.

(** ** package logrus *)

Inductive Level := DebugLevel | WarnLevel | FatalLevel.

(** The value of a field: a string, or the error of [strconv.Atoi]. *)
Inductive FieldValue :=
| VString (s : string)
| VNumError (e : NumError).

Record Entry := {
  level : Level;
  message : string;
  fields : gmap string FieldValue
}.

(** ** The world the program runs in *)

Record World := {
  environ : gmap string string;   (* the process environment *)
  wire : list Request;            (* the requests http.DefaultTransport was
                                     given, oldest first *)
  stdout : string;                (* what was written to standard output *)
  logged : list Entry             (* the entries given to logrus, oldest first *)
}.

(** A computation that reads and changes the world. *)
Definition M (A : Type) : Type := World -> A * World.

Definition ret {A} (a : A) : M A := fun w => (a, w).

Definition bind {A B} (m : M A) (k : A -> M B) : M B :=
  fun w => let '(a, w') := m w in k a w'.

Notation "'do' x <- m ; k" := (bind m (fun x => k))
  (at level 10, x pattern, m at level 100, k at level 200).

(** [os.Getenv]: the empty string when the variable is not set. *)
Definition Getenv (name : string) : M string :=
  fun w => (default "" (environ w !! name), w).

(** [fmt.Printf], once formatted. *)
Definition Print (s : string) : M unit :=
  fun w => (tt, {| environ := environ w; wire := wire w;
                   stdout := stdout w +:+ s; logged := logged w |}).

(** [logrus.WithFields(...).Debug(...)] and the like: the entry is handed to
    the logger, which writes it or not by its level. *)
Definition Log (e : Entry) : M unit :=
  fun w => (tt, {| environ := environ w; wire := wire w;
                   stdout := stdout w; logged := (logged w ++ [e])%list |}).

(** [http.RoundTripper]: what can send a request and bring back a response
    or an error. *)
Class RoundTripper (T : Type) :=
  RoundTrip : T -> Request -> M (Response + string).

(** [*http.Transport], the type of [http.DefaultTransport], seen from the
    program: the request goes on the wire and the network answers. *)
Record Transport := { network : Request -> Response + string }.

#[export] Instance Transport_RoundTripper : RoundTripper Transport :=
  fun t req w =>
    (network t req,
     {| environ := environ w; wire := (wire w ++ [req])%list;
        stdout := stdout w; logged := logged w |}).

(** [AuthenticationTransport] is a custom transport that adds the ZenHub
    token to the [AuthenticationHeader]. *)
Record AuthenticationTransport (T : Type) := {
  transport : T;
  authenticationToken : string
}.
Arguments transport {T} _.
Arguments authenticationToken {T} _.

(** [RoundTrip] adds the [AuthenticationHeader] to the request and calls the
    wrapped [transport]. *)
#[export] Instance AuthenticationTransport_RoundTripper
  {T} `{RoundTripper T} : RoundTripper (AuthenticationTransport T) :=
  fun t req =>
    let req := {| Method := Method req; URL := URL req;
                  Header := Header_Add (Header req) AuthenticationHeader
                                       (authenticationToken t);
                  Body := Body req |} in
    RoundTrip (transport t) req.

Record Client (T : Type) := { Client_Transport : T }.
Arguments Client_Transport {T} _.

(** ** package cli

    [cli.Context], once the library has parsed the command line: the
    positional arguments and the value of every flag, the one given or else
    the flag's default. *)
Record Context := {
  Args : list string;
  StringFlags : gmap string string;
  UintFlags : gmap string Z
}.

(** [ctx.Args().Len()], [ctx.Args().Get(n)] and [ctx.Args().First()]: an
    index out of range gives the empty string. *)
Definition Args_Len (ctx : Context) : nat := length (Args ctx).
Definition Args_Get (ctx : Context) (n : nat) : string := nth n (Args ctx) "".
Definition Args_First (ctx : Context) : string := Args_Get ctx 0.

(** [ctx.String(name)] and [ctx.Uint(name)]: the zero value for a flag that
    does not exist. *)
Definition Context_String (ctx : Context) (name : string) : string :=
  default "" (StringFlags ctx !! name).
Definition Context_Uint (ctx : Context) (name : string) : Z :=
  default 0 (UintFlags ctx !! name).

Definition newline : string := String (Str.chr 10) EmptyString.

(** ** The program *)

(** [ErrorFromStatusCode] converts the given status code into a more
    informative error message. *)
Definition ErrorFromStatusCode (statusCode : Z) : option error :=
  if statusCode =? 401 then Some InvalidToken
  else if statusCode =? 403 then Some LimitReached
  else if statusCode =? 404 then Some EndpointNotFound
  else if statusCode =? 200 then None
  else Some (UnknownStatus statusCode).

(** [GetZenHubToken] gets the ZenHub token, from the environment variable
    ZENHUB_TOKEN. *)
Definition GetZenHubToken : M (string * option error) :=
  do value <- Getenv ZenHubTokenEnvVar;
  let envVar := TrimSpace value in
  if negb (String.eqb envVar "") then ret (envVar, None)
  else ret ("", Some MissingToken).

Section Program.

(** The width of [int] and [uint] on the platform. *)
Variable sz : IntSize.

(** [url.Parse], as far as the program depends on it: [None] when the text
    is accepted, the reason when it is not. *)
Variable url_Parse : string -> option string.

(** [http.DefaultTransport]. *)
Variable DefaultTransport : Transport.

(** [http.Client.Post]: [http.NewRequest] parses the URL and fails before
    anything is sent when that fails; the request, with its content type,
    then goes to the client's transport once. Redirects, cookies and
    timeouts are left out: the answer of the transport is the answer of
    [Post], an error wrapped in a [*url.Error]. *)
Definition Client_Post {T} `{RoundTripper T} (c : Client T)
           (url contentType body : string) : M (Response + error) :=
  match url_Parse url with
  | Some cause => ret (inr (URLError "parse" url cause))
  | None =>
    let req := {| Method := "POST"; URL := url;
                  Header := Header_Set ∅ "Content-Type" contentType;
                  Body := body |} in
    do r <- RoundTrip (Client_Transport c) req;
    match r with
    | inl resp => ret (inl resp)
    | inr cause => ret (inr (URLError "Post" url cause))
    end
  end.

(** [MoveIssueCommand] moves issues between pipelines. *)
Definition MoveIssueCommand (ctx : Context) : M (option error) :=
  if negb (Args_Len ctx =? 2)%nat then ret (Some (BadArgCount (Args_Len ctx)))
  else
  match Atoi sz (Args_First ctx) with
  | inr _ => ret (Some (BadIssueID (Args_First ctx)))
  | inl issueID =>
    let pipelineID := Args_Get ctx 1 in
    do (token, err) <- GetZenHubToken;
    match err with
    | Some err => ret (Some err)
    | None =>
      let client :=
        {| Client_Transport :=
             {| transport := DefaultTransport;
                authenticationToken := token |} |} in
      let workspaceID := Context_String ctx "workspace-id" in
      if String.eqb workspaceID "" then ret (Some (BadWorkspaceID workspaceID))
      else
      let repositoryID := Context_Uint ctx "repository-id" in
      if repositoryID =? 0 then ret (Some (BadRepositoryID repositoryID))
      else
      let url :=
        Context_String ctx "base-url" +:+ "/p2/workspaces/" +:+ workspaceID
        +:+ "/repositories/" +:+ fmt_d repositoryID
        +:+ "/issues/" +:+ fmt_d issueID +:+ "/moves" in
      let request := {| PipelineID := pipelineID; Position := "bottom" |} in
      let '(body, err) := json_Marshal request in
      match err with
      | Some cause => ret (Some (MarshalFailed request cause))
      | None =>
        do _ <- Log {| level := DebugLevel;
                       message := "Sending move issue request";
                       fields := {[ "url" := VString url;
                                    "body" := VString body ]} |};
        do r <- Client_Post client url "application/json" body;
        match r with
        | inr err => ret (Some (MoveFailed err))
        | inl resp =>
          match ErrorFromStatusCode (StatusCode resp) with
          | Some err => ret (Some (MoveFailed err))
          | None =>
            do _ <- Print ("Successfully moved issue " +:+ fmt_d issueID
                           +:+ " to pipelines " +:+ pipelineID +:+ newline);
            ret None
          end
        end
      end
    end
  end.

(** The start of [main], from the environment to the defaults of the flags
    [workspace-id] and [repository-id]; [environ] is the environment after
    the .env file was loaded. [None]: [logrus.Fatal] has ended the process,
    because ZENHUB_REPOSITORY_ID is set and is not an [int]. *)
Definition main_defaults : M (option (string * Z)) :=
  do defaultWorkspaceID <- Getenv ZenHubWorkspaceIDEnvVar;
  do repoIDEnv <- Getenv ZenHubRepositoryIDEnvVar;
  if negb (String.eqb (TrimSpace repoIDEnv) "") then
    match Atoi sz repoIDEnv with
    | inr err =>
      do _ <- Log {| level := FatalLevel;
                     message := "invalid value for default repository ID";
                     fields := {[ "error" := VNumError err;
                                  "name" := VString ZenHubRepositoryIDEnvVar;
                                  "value" := VString repoIDEnv ]} |};
      ret None
    | inl repoID => ret (Some (defaultWorkspaceID, uint_of_int sz repoID))
    end
  else ret (Some (defaultWorkspaceID, 0)).

End Program.

(** ** The kinds of error of the specification

    The specification names eight kinds of error; the program has one
    [error] type. Each error falls under a kind by the place that makes it,
    and a wrapped error under the kind of what it wraps. *)

Inductive ErrorKind :=
| ConfigurationError
| ArgumentError
| SerializationError
| NetworkError
| AuthenticationError
| RateLimitError
| NotFoundError
| UnknownStatusError.

Fixpoint errorKind (e : error) : ErrorKind :=
  match e with
  | BadArgCount _ | BadIssueID _ => ArgumentError
  | MissingToken | BadWorkspaceID _ | BadRepositoryID _ => ConfigurationError
  | MarshalFailed _ _ => SerializationError
  | URLError _ _ _ => NetworkError
  | InvalidToken => AuthenticationError
  | LimitReached => RateLimitError
  | EndpointNotFound => NotFoundError
  | UnknownStatus _ => UnknownStatusError
  | MoveFailed err => errorKind err
  end.

(** ** The templates of the specification

    What the specification documents for the request of a move, to be
    compared with what [MoveIssueCommand] builds. *)

(** The URL: the base URL, then /p2/workspaces/, the workspace ID,
    /repositories/, the repository ID, /issues/, the issue ID and /moves. *)
Definition spec_move_url (baseURL workspaceID : string)
           (repositoryID issueID : Z) : string :=
  baseURL +:+ "/p2/workspaces/" +:+ workspaceID +:+ "/repositories/"
  +:+ fmt_d repositoryID +:+ "/issues/" +:+ fmt_d issueID +:+ "/moves".

(** The body with [value] in the place of the pipeline's value: an opening
    brace, pipeline_id in quotes, a colon, [value], a comma, position in
    quotes, a colon, bottom in quotes and a closing brace. *)
Definition spec_move_body_with (value : string) : string :=
  "{" +:+ quoted "pipeline_id" +:+ ":" +:+ value +:+ ","
  +:+ quoted "position" +:+ ":" +:+ quoted "bottom" +:+ "}".

(** The body as the specification writes it: the pipeline ID itself between
    quotes. *)
Definition spec_move_body (pipelineID : string) : string :=
  spec_move_body_with (quoted pipelineID).

(** The value of ZENHUB_TOKEN that [GetZenHubToken] keeps: trimmed, and empty
    when the variable is not set. *)
Definition tokenValue (w : World) : string :=
  TrimSpace (default "" (environ w !! ZenHubTokenEnvVar)).

(** The request [MoveIssueCommand] hands to [http.Client.Post], as it leaves
    the [AuthenticationTransport]. *)
Definition move_request (token url body : string) : Request :=
  {| Method := "POST"; URL := url;
     Header := Header_Add (Header_Set ∅ "Content-Type" "application/json")
                          AuthenticationHeader token;
     Body := body |}.

(** The entry [MoveIssueCommand] gives to logrus before it posts. *)
Abbreviation sending url body :=
  {| level := DebugLevel; message := "Sending move issue request";
     fields := {[ "url" := VString url; "body" := VString body ]} |}.

(** A byte below 0x80 that is not white space: it ends the scan of
    [TrimSpace] from either side. *)
Definition solid (c : ascii) : Prop :=
  (Str.code c < 128)%N /\ asciiSpace c = false.

(** ** Inputs for the examples *)

(** A world where nothing has happened yet, with ZENHUB_TOKEN set. *)
Definition world_with_token (token : string) : World :=
  {| environ := {[ ZenHubTokenEnvVar := token ]};
     wire := []; stdout := ""; logged := [] |}.

(** A world with an empty environment. *)
Definition bare_world : World :=
  {| environ := ∅; wire := []; stdout := ""; logged := [] |}.

(** The context of a command line that gives the positional arguments and
    the two IDs, and leaves the base URL at its default. *)
Definition context_of (args : list string) (workspaceID : string)
           (repositoryID : Z) : Context :=
  {| Args := args;
     StringFlags := {[ "base-url" := DefaultBaseURL;
                       "workspace-id" := workspaceID ]};
     UintFlags := {[ "repository-id" := repositoryID ]} |}.

(** A network that answers every request with the same status. *)
Definition answers (statusCode : Z) : Transport :=
  {| network := fun _ => inl {| StatusCode := statusCode |} |}.

(** A URL parser that accepts everything. *)
Definition accepts_all : string -> option string := fun _ => None.

(** ** What the properties below speak of *)

(** The five checks of [MoveIssueCommand] all pass: two arguments, the first
    an [int], a token, a workspace ID and a repository ID. *)
Definition checks_pass (sz : IntSize) (ctx : Context) (w : World) : Prop :=
  Args_Len ctx = 2%nat
  /\ (exists issueID, Atoi sz (Args_First ctx) = inl issueID)
  /\ tokenValue w <> ""
  /\ Context_String ctx "workspace-id" <> ""
  /\ Context_Uint ctx "repository-id" <> 0.

(** The context the action gets from [app.Run] when the command line sets no
    flag: every flag of the [cli.App] of [main] has its [Value], which is
    [DefaultBaseURL] for base-url and the two defaults that [main] took from
    the environment for workspace-id and repository-id. *)
Definition default_context (defaults : string * Z) (args : list string)
  : Context :=
  {| Args := args;
     StringFlags := {[ "base-url" := DefaultBaseURL;
                       "workspace-id" := fst defaults ]};
     UintFlags := {[ "repository-id" := snd defaults ]} |}.

(** The first byte of a string, when there is one. *)
Definition first_byte (s : string) : option ascii :=
  match s with
  | EmptyString => None
  | String c _ => Some c
  end.

(** A network that fails every request. *)
Definition refuses (cause : string) : Transport :=
  {| network := fun _ => inr cause |}.

(** A URL parser that accepts nothing. *)
Definition rejects_all (cause : string) : string -> option string :=
  fun _ => Some cause.

(** A world where nothing has happened yet, with the given environment. *)
Definition world_of (env : gmap string string) : World :=
  {| environ := env; wire := []; stdout := ""; logged := [] |}.

(** The scenario of the specification: issue 7 to pipeline p9 in workspace
    ws1 and repository 42, with the token abc. *)
Definition example_context : Context := context_of ["7"; "p9"] "ws1" 42.
Definition example_world : World := world_with_token "abc".
Definition example_request : Request :=
  move_request "abc" (spec_move_url DefaultBaseURL "ws1" 42 7)
               (spec_move_body "p9").

(** ** Examples *)

Example fmt_d_42 : fmt_d 42 = "42". Proof. reflexivity. Qed.
Example fmt_d_neg : fmt_d (-7) = "-7". Proof. reflexivity. Qed.
Example fmt_d_0 : fmt_d 0 = "0". Proof. reflexivity. Qed.
Example Atoi_neg5 : Atoi Int64 "-5" = inl (-5). Proof. reflexivity. Qed.
Example Atoi_plus : Atoi Int64 "+12" = inl 12. Proof. reflexivity. Qed.
Example Atoi_sign_only : Atoi Int64 "-" = inr (ErrSyntax "-").
Proof. reflexivity. Qed.
Example Atoi_blank : Atoi Int64 " 5" = inr (ErrSyntax " 5").
Proof. reflexivity. Qed.
Example Atoi_underscore : Atoi Int64 "1_000" = inr (ErrSyntax "1_000").
Proof. reflexivity. Qed.
Example Atoi_range32 : Atoi Int32 "2147483648" = inr (ErrRange "2147483648").
Proof. reflexivity. Qed.
Example Atoi_min32 : Atoi Int32 "-2147483648" = inl (-2147483648).
Proof. reflexivity. Qed.
Example Atoi_range_first :
  Atoi Int64 "99999999999999999999x" = inr (ErrRange "99999999999999999999x").
Proof. reflexivity. Qed.
Example TrimSpace_ex : TrimSpace ("  a b" +:+ String (Str.chr 9) "") = "a b".
Proof. reflexivity. Qed.
Example TrimSpace_nbsp :
  TrimSpace (String (Str.chr 194) (String (Str.chr 160) "x")) = "x".
Proof. reflexivity. Qed.
Example TrimSpace_blank : TrimSpace "   " = "". Proof. reflexivity. Qed.

Example escape_quote_html :
  json_string ("a" +:+ dquote +:+ "b<")
  = dquote +:+ "a" +:+ backslash +:+ dquote +:+ "b" +:+ backslash +:+ "u003c"
    +:+ dquote.
Proof. reflexivity. Qed.

Example escape_line_separator :
  escapeString
    (String (Str.chr 226) (String (Str.chr 128) (String (Str.chr 168) "")))
  = backslash +:+ "u2028".
Proof. reflexivity. Qed.

Example escape_ill_formed :
  escapeString (String (Str.chr 200) "x") = backslash +:+ "ufffdx".
Proof. reflexivity. Qed.

Example Error_wrapped :
  Error (MoveFailed (UnknownStatus 500))
  = "failed to move issue between pipelines: unknown status code 500. This most likely is a bug in zh, please report it".
Proof. reflexivity. Qed.

(** ** The monad and the world *)

Lemma bind_run {A B} (m : M A) (k : A -> M B) (w w' : World) (a : A) :
  m w = (a, w') -> bind m k w = k a w'.
Proof. intros E. unfold bind. now rewrite E. Qed.

Lemma app_grows {A} (l : list A) (x : A) : l <> (l ++ [x])%list.
Proof.
  intros E. apply (f_equal (@length A)) in E.
  rewrite length_app in E. cbn in E. lia.
Qed.

(** ** ErrorFromStatusCode *)

(** C2. The status code decides the error: 200 gives none, 401 the
    authentication error, 403 the rate-limit error, 404 the not-found error,
    and any other code the unknown-status error, whose text holds the code in
    decimal, between two fixed parts. *)
Theorem ErrorFromStatusCode_mapping (code : Z) :
  (code = 200 -> ErrorFromStatusCode code = None)
  /\ (code = 401 ->
      ErrorFromStatusCode code = Some InvalidToken
      /\ errorKind InvalidToken = AuthenticationError)
  /\ (code = 403 ->
      ErrorFromStatusCode code = Some LimitReached
      /\ errorKind LimitReached = RateLimitError)
  /\ (code = 404 ->
      ErrorFromStatusCode code = Some EndpointNotFound
      /\ errorKind EndpointNotFound = NotFoundError)
  /\ (code <> 200 -> code <> 401 -> code <> 403 -> code <> 404 ->
      ErrorFromStatusCode code = Some (UnknownStatus code)
      /\ errorKind (UnknownStatus code) = UnknownStatusError
      /\ Error (UnknownStatus code)
         = "unknown status code " +:+ fmt_d code
           +:+ ". This most likely is a bug in zh, please report it").
Proof.
  split; [now intros ->|].
  split; [now intros ->|].
  split; [now intros ->|].
  split; [now intros ->|].
  intros H200 H401 H403 H404. unfold ErrorFromStatusCode.
  destruct (Z.eqb_spec code 401); [contradiction|].
  destruct (Z.eqb_spec code 403); [contradiction|].
  destruct (Z.eqb_spec code 404); [contradiction|].
  destruct (Z.eqb_spec code 200); [contradiction|].
  repeat split.
Qed.

Lemma ErrorFromStatusCode_mapping_500 :
  ErrorFromStatusCode 500 = Some (UnknownStatus 500)
  /\ errorKind (UnknownStatus 500) = UnknownStatusError
  /\ Error (UnknownStatus 500)
     = "unknown status code 500. This most likely is a bug in zh, please report it".
Proof.
  apply (proj2 (proj2 (proj2 (proj2 (ErrorFromStatusCode_mapping 500))))); lia.
Defined.

(** The texts of the four errors differ from one another. *)
Lemma status_errors_distinct (code : Z) :
  Error InvalidToken <> Error LimitReached
  /\ Error InvalidToken <> Error EndpointNotFound
  /\ Error LimitReached <> Error EndpointNotFound
  /\ Error (UnknownStatus code) <> Error InvalidToken
  /\ Error (UnknownStatus code) <> Error LimitReached
  /\ Error (UnknownStatus code) <> Error EndpointNotFound.
Proof. repeat split; discriminate. Qed.

(** ** The authenticating transport *)

Lemma Header_Add_same (h : gmap string (list string)) (key value : string) :
  Header_Add h key value !! key = Some (default [] (h !! key) ++ [value])%list.
Proof. unfold Header_Add. apply lookup_insert_eq. Qed.

Lemma Header_Add_other (h : gmap string (list string)) (key value k : string) :
  k <> key -> Header_Add h key value !! k = h !! k.
Proof. intros Hne. unfold Header_Add. now apply lookup_insert_ne. Qed.

(** C3. The request an [AuthenticationTransport] passes to the transport it
    wraps has the method, the URL, the body and every header of the request
    it was given, but for [AuthenticationHeader], which gains the token as its
    last value; and the answer of the wrapped transport is returned as it
    is. *)
Theorem RoundTrip_adds_the_token_only
        {T} `{RoundTripper T} (t : AuthenticationTransport T)
        (req : Request) (w : World) :
  exists req' : Request,
    RoundTrip t req w = RoundTrip (transport t) req' w
    /\ Method req' = Method req
    /\ URL req' = URL req
    /\ Body req' = Body req
    /\ Header req' !! AuthenticationHeader
       = Some (default [] (Header req !! AuthenticationHeader)
               ++ [authenticationToken t])%list
    /\ forall k : string,
        k <> AuthenticationHeader -> Header req' !! k = Header req !! k.
Proof.
  eexists. split; [reflexivity|]. cbn.
  repeat split.
  - apply Header_Add_same.
  - intros k Hk. now apply Header_Add_other.
Qed.

(** With [http.DefaultTransport] wrapped, that request is the one that goes
    on the wire. *)
Lemma RoundTrip_on_the_wire (dt : Transport) (token : string)
      (req : Request) (w : World) :
  let t := {| transport := dt; authenticationToken := token |} in
  let req' := {| Method := Method req; URL := URL req;
                 Header := Header_Add (Header req) AuthenticationHeader token;
                 Body := Body req |} in
  RoundTrip t req w
  = (network dt req',
     {| environ := environ w; wire := (wire w ++ [req'])%list;
        stdout := stdout w; logged := logged w |}).
Proof. reflexivity. Qed.

Lemma RoundTrip_adds_the_token_only_get :
  exists req' : Request,
    RoundTrip {| transport := {| network := fun _ => inl {| StatusCode := 200 |} |};
                 authenticationToken := "abc" |}
              {| Method := "GET"; URL := "https://api.zenhub.com/";
                 Header := {[ "Accept" := ["*/*"] ]}; Body := "" |}
              {| environ := ∅; wire := []; stdout := ""; logged := [] |}
    = RoundTrip {| network := fun _ => inl {| StatusCode := 200 |} |} req'
                {| environ := ∅; wire := []; stdout := ""; logged := [] |}
    /\ Method req' = "GET"
    /\ URL req' = "https://api.zenhub.com/"
    /\ Body req' = ""
    /\ Header req' !! AuthenticationHeader = Some ["abc"]
    /\ Header req' !! "Accept" = Some ["*/*"].
Proof.
  destruct (RoundTrip_adds_the_token_only
              {| transport := {| network := fun _ => inl {| StatusCode := 200 |} |};
                 authenticationToken := "abc" |}
              {| Method := "GET"; URL := "https://api.zenhub.com/";
                 Header := {[ "Accept" := ["*/*"] ]}; Body := "" |}
              {| environ := ∅; wire := []; stdout := ""; logged := [] |})
    as (req' & Hrun & Hm & Hu & Hb & Hauth & Hother).
  exists req'. repeat split; try assumption.
  rewrite (Hother "Accept"); [reflexivity | discriminate].
Defined.

(** ** GetZenHubToken *)

Lemma GetZenHubToken_blank (w : World) :
  tokenValue w = "" -> GetZenHubToken w = (("", Some MissingToken), w).
Proof.
  unfold tokenValue. intros E. unfold GetZenHubToken, bind, Getenv.
  now rewrite E.
Qed.

Lemma GetZenHubToken_set (w : World) :
  tokenValue w <> "" -> GetZenHubToken w = ((tokenValue w, None), w).
Proof.
  unfold tokenValue. intros E. unfold GetZenHubToken, bind, Getenv.
  destruct (String.eqb_spec
              (TrimSpace (default "" (environ w !! ZenHubTokenEnvVar))) "");
    [contradiction | reflexivity].
Qed.

(** The variable is absent, or blank once trimmed: nothing is kept. *)
Lemma tokenValue_blank (w : World) :
  environ w !! ZenHubTokenEnvVar = None
  \/ (exists v, environ w !! ZenHubTokenEnvVar = Some v /\ TrimSpace v = "") ->
  tokenValue w = "".
Proof.
  unfold tokenValue. intros [E | (v & E & Hv)]; rewrite E; [reflexivity | exact Hv].
Qed.

(** ** MoveIssueCommand, check by check *)

Section Command.

Variable sz : IntSize.
Variable url_Parse : string -> option string.
Variable DefaultTransport : Transport.

Local Abbreviation run := (MoveIssueCommand sz url_Parse DefaultTransport).

Lemma run_bad_count (ctx : Context) (w : World) :
  Args_Len ctx <> 2%nat ->
  run ctx w = (Some (BadArgCount (Args_Len ctx)), w).
Proof.
  intros Hlen. unfold MoveIssueCommand.
  destruct (Nat.eqb_spec (Args_Len ctx) 2); [contradiction | reflexivity].
Qed.

Lemma run_bad_issue (ctx : Context) (w : World) (e : NumError) :
  Args_Len ctx = 2%nat ->
  Atoi sz (Args_First ctx) = inr e ->
  run ctx w = (Some (BadIssueID (Args_First ctx)), w).
Proof.
  intros Hlen Hatoi. unfold MoveIssueCommand.
  rewrite Hlen, Hatoi. reflexivity.
Qed.

Lemma run_no_token (ctx : Context) (w : World) (issueID : Z) :
  Args_Len ctx = 2%nat ->
  Atoi sz (Args_First ctx) = inl issueID ->
  tokenValue w = "" ->
  run ctx w = (Some MissingToken, w).
Proof.
  intros Hlen Hatoi Htok. unfold MoveIssueCommand.
  rewrite Hlen, Hatoi. cbn [Nat.eqb negb].
  now rewrite (bind_run _ _ _ _ _ (GetZenHubToken_blank w Htok)).
Qed.

Lemma run_bad_workspace (ctx : Context) (w : World) (issueID : Z) :
  Args_Len ctx = 2%nat ->
  Atoi sz (Args_First ctx) = inl issueID ->
  tokenValue w <> "" ->
  Context_String ctx "workspace-id" = "" ->
  run ctx w = (Some (BadWorkspaceID ""), w).
Proof.
  intros Hlen Hatoi Htok Hws. unfold MoveIssueCommand.
  rewrite Hlen, Hatoi. cbn [Nat.eqb negb].
  rewrite (bind_run _ _ _ _ _ (GetZenHubToken_set w Htok)).
  now rewrite Hws.
Qed.

Lemma run_bad_repository (ctx : Context) (w : World) (issueID : Z) :
  Args_Len ctx = 2%nat ->
  Atoi sz (Args_First ctx) = inl issueID ->
  tokenValue w <> "" ->
  Context_String ctx "workspace-id" <> "" ->
  Context_Uint ctx "repository-id" = 0 ->
  run ctx w = (Some (BadRepositoryID 0), w).
Proof.
  intros Hlen Hatoi Htok Hws Hrepo. unfold MoveIssueCommand.
  rewrite Hlen, Hatoi. cbn [Nat.eqb negb].
  rewrite (bind_run _ _ _ _ _ (GetZenHubToken_set w Htok)).
  destruct (String.eqb_spec (Context_String ctx "workspace-id") "");
    [contradiction|].
  now rewrite Hrepo.
Qed.

(** Past the checks: the entry is logged, then the request is posted and
    its answer decides. *)
Lemma run_valid (ctx : Context) (w : World) (issueID : Z) :
  Args_Len ctx = 2%nat ->
  Atoi sz (Args_First ctx) = inl issueID ->
  tokenValue w <> "" ->
  Context_String ctx "workspace-id" <> "" ->
  Context_Uint ctx "repository-id" <> 0 ->
  let url := spec_move_url (Context_String ctx "base-url")
                           (Context_String ctx "workspace-id")
                           (Context_Uint ctx "repository-id") issueID in
  let body := spec_move_body_with (json_string (Args_Get ctx 1)) in
  let req := move_request (tokenValue w) url body in
  let w1 := {| environ := environ w; wire := wire w; stdout := stdout w;
               logged := (logged w
                          ++ [{| level := DebugLevel;
                                 message := "Sending move issue request";
                                 fields := {[ "url" := VString url;
                                              "body" := VString body ]} |}])%list
          |} in
  let w2 := {| environ := environ w; wire := (wire w ++ [req])%list;
               stdout := stdout w; logged := logged w1 |} in
  run ctx w =
  match url_Parse url with
  | Some cause => (Some (MoveFailed (URLError "parse" url cause)), w1)
  | None =>
    match network DefaultTransport req with
    | inr cause => (Some (MoveFailed (URLError "Post" url cause)), w2)
    | inl resp =>
      match ErrorFromStatusCode (StatusCode resp) with
      | Some err => (Some (MoveFailed err), w2)
      | None =>
        (None,
         {| environ := environ w; wire := wire w2;
            stdout := stdout w +:+ "Successfully moved issue "
                      +:+ fmt_d issueID +:+ " to pipelines "
                      +:+ Args_Get ctx 1 +:+ newline;
            logged := logged w1 |})
      end
    end
  end.
Proof.
  intros Hlen Hatoi Htok Hws Hrepo url body req w1 w2.
  unfold MoveIssueCommand.
  rewrite Hlen, Hatoi. cbn [Nat.eqb negb].
  rewrite (bind_run _ _ _ _ _ (GetZenHubToken_set w Htok)).
  destruct (String.eqb_spec (Context_String ctx "workspace-id") "");
    [contradiction|].
  destruct (Z.eqb_spec (Context_Uint ctx "repository-id") 0);
    [contradiction|].
  cbv beta iota zeta delta [json_Marshal PipelineID Position].
  fold (spec_move_url (Context_String ctx "base-url")
                      (Context_String ctx "workspace-id")
                      (Context_Uint ctx "repository-id") issueID).
  fold url.
  change (json_string "bottom") with (quoted "bottom").
  fold (spec_move_body_with (json_string (Args_Get ctx 1))). fold body.
  unfold bind at 1. cbn [Log].
  fold w1.
  unfold bind at 1, Client_Post.
  destruct (url_Parse url) as [cause|]; [reflexivity|].
  unfold bind at 1. cbn [Client_Transport].
  rewrite RoundTrip_on_the_wire. cbn [Method URL Header Body logged stdout environ wire].
  fold (move_request (tokenValue w) url body). fold req.
  destruct (network DefaultTransport req) as [resp|cause]; [|reflexivity].
  unfold ret. destruct (ErrorFromStatusCode (StatusCode resp)); reflexivity.
Qed.

(** The checks of [MoveIssueCommand], in its order. *)
Ltac checks ctx w :=
  destruct (Nat.eq_dec (Args_Len ctx) 2%nat) as [Hlen|Hlen];
  [ destruct (Atoi sz (Args_First ctx)) as [issueID|nerr] eqn:Hatoi;
    [ destruct (decide (tokenValue w = "")) as [Htok|Htok];
      [ | destruct (decide (Context_String ctx "workspace-id" = ""))
            as [Hws|Hws];
          [ | destruct (Z.eq_dec (Context_Uint ctx "repository-id") 0)
                as [Hrepo|Hrepo] ] ]
    | ]
  | ].

(** Splits what is left of a goal and closes each part by computation or by
    a clash among the hypotheses. *)
Ltac settle :=
  repeat match goal with
         | |- _ /\ _ => split
         | |- _ -> _ => intro
         | H : exists _, _ |- _ => destruct H
         | H : _ \/ _ |- _ => destruct H
         end;
  try reflexivity; try contradiction; try congruence.

(** C5. When the positional arguments are not exactly two, or the first is
    not an integer, the command returns an argument error and leaves the
    world as it was: nothing is sent. *)
Theorem bad_arguments_rejected (ctx : Context) (w : World) :
  Args_Len ctx <> 2%nat \/ (exists e, Atoi sz (Args_First ctx) = inr e) ->
  exists err,
    run ctx w = (Some err, w)
    /\ errorKind err = ArgumentError
    /\ wire (snd (run ctx w)) = wire w.
Proof.
  intros Hbad.
  destruct (Nat.eq_dec (Args_Len ctx) 2%nat) as [Hlen|Hlen].
  - destruct Hbad as [Hbad | (e & He)]; [contradiction|].
    exists (BadIssueID (Args_First ctx)).
    rewrite (run_bad_issue ctx w e Hlen He). now repeat split.
  - exists (BadArgCount (Args_Len ctx)).
    rewrite (run_bad_count ctx w Hlen). now repeat split.
Qed.

(** C4, amended. When ZENHUB_TOKEN is absent or blank once trimmed, the
    command fails and leaves the world as it was: nothing is sent. The
    error is the configuration error of the missing token when the
    arguments are two with an integer first, and the argument error
    otherwise, the arguments being checked first. *)
Theorem blank_token_rejected (ctx : Context) (w : World) :
  environ w !! ZenHubTokenEnvVar = None
  \/ (exists v, environ w !! ZenHubTokenEnvVar = Some v /\ TrimSpace v = "") ->
  exists err,
    run ctx w = (Some err, w)
    /\ wire (snd (run ctx w)) = wire w
    /\ (Args_Len ctx = 2%nat ->
        (exists issueID, Atoi sz (Args_First ctx) = inl issueID) ->
        err = MissingToken /\ errorKind err = ConfigurationError)
    /\ (Args_Len ctx <> 2%nat
        \/ (exists e, Atoi sz (Args_First ctx) = inr e) ->
        errorKind err = ArgumentError).
Proof.
  intros Hblank. apply tokenValue_blank in Hblank.
  checks ctx w; try contradiction.
  - exists MissingToken. rewrite (run_no_token ctx w issueID Hlen Hatoi Hblank). settle.
  - exists (BadIssueID (Args_First ctx)).
    rewrite (run_bad_issue ctx w nerr Hlen Hatoi). settle.
  - exists (BadArgCount (Args_Len ctx)). rewrite (run_bad_count ctx w Hlen). settle.
Qed.

(** C6, amended. When the repository ID is zero, the command fails and
    leaves the world as it was: nothing is sent. The error is a
    configuration error when the arguments are two with an integer first
    (the one of the repository when the token and the workspace are set),
    and the argument error otherwise. *)
Theorem zero_repository_rejected (ctx : Context) (w : World) :
  Context_Uint ctx "repository-id" = 0 ->
  exists err,
    run ctx w = (Some err, w)
    /\ wire (snd (run ctx w)) = wire w
    /\ (Args_Len ctx = 2%nat ->
        (exists issueID, Atoi sz (Args_First ctx) = inl issueID) ->
        errorKind err = ConfigurationError
        /\ (tokenValue w <> "" -> Context_String ctx "workspace-id" <> "" ->
            err = BadRepositoryID 0))
    /\ (Args_Len ctx <> 2%nat
        \/ (exists e, Atoi sz (Args_First ctx) = inr e) ->
        errorKind err = ArgumentError).
Proof.
  intros Hzero.
  checks ctx w; try contradiction.
  - exists MissingToken. rewrite (run_no_token ctx w issueID Hlen Hatoi Htok). settle.
  - exists (BadWorkspaceID "").
    rewrite (run_bad_workspace ctx w issueID Hlen Hatoi Htok Hws). settle.
  - exists (BadRepositoryID 0).
    rewrite (run_bad_repository ctx w issueID Hlen Hatoi Htok Hws Hrepo). settle.
  - exists (BadIssueID (Args_First ctx)).
    rewrite (run_bad_issue ctx w nerr Hlen Hatoi). settle.
  - exists (BadArgCount (Args_Len ctx)). rewrite (run_bad_count ctx w Hlen). settle.
Qed.





(** C8. When a request went out and its response has status 200, the command
    returns no error and prints that the issue, named by its ID, was moved
    to the pipeline, named by its ID. *)
Theorem status_200_succeeds (ctx : Context) (w : World)
        (req : Request) (resp : Response) :
  wire (snd (run ctx w)) = (wire w ++ [req])%list ->
  network DefaultTransport req = inl resp ->
  StatusCode resp = 200 ->
  exists issueID,
    Atoi sz (Args_First ctx) = inl issueID
    /\ fst (run ctx w) = None
    /\ stdout (snd (run ctx w))
       = stdout w +:+ "Successfully moved issue " +:+ fmt_d issueID
         +:+ " to pipelines " +:+ Args_Get ctx 1 +:+ newline.
Proof.
  intros Hwire Hnet H200.
  checks ctx w.
  - rewrite (run_no_token ctx w issueID Hlen Hatoi Htok) in Hwire.
    now apply app_grows in Hwire.
  - rewrite (run_bad_workspace ctx w issueID Hlen Hatoi Htok Hws) in Hwire.
    now apply app_grows in Hwire.
  - rewrite (run_bad_repository ctx w issueID Hlen Hatoi Htok Hws Hrepo) in Hwire.
    now apply app_grows in Hwire.
  - pose proof (run_valid ctx w issueID Hlen Hatoi Htok Hws Hrepo) as Hrun.
    cbv zeta in Hrun. rewrite Hrun in Hwire |- *. clear Hrun.
    exists issueID. split; [reflexivity|].
    destruct (url_Parse _) as [cause|].
    { cbn in Hwire. now apply app_grows in Hwire. }
    assert (Hreq : move_request (tokenValue w)
                     (spec_move_url (Context_String ctx "base-url")
                                    (Context_String ctx "workspace-id")
                                    (Context_Uint ctx "repository-id") issueID)
                     (spec_move_body_with (json_string (Args_Get ctx 1))) = req).
    { destruct (network DefaultTransport _) as [r|c];
        [destruct (ErrorFromStatusCode _)|];
        cbn in Hwire; now apply app_inj_tail in Hwire. }
    rewrite Hreq, Hnet, H200. cbn. now split.
  - rewrite (run_bad_issue ctx w nerr Hlen Hatoi) in Hwire.
    now apply app_grows in Hwire.
  - rewrite (run_bad_count ctx w Hlen) in Hwire.
    now apply app_grows in Hwire.
Qed.

(** C9. Whatever the command is given, every request it sends, and every
    body it logs, is the encoding of a [MoveIssueRequest] whose position is
    bottom: the body ends with position, a colon, bottom and the closing
    brace. *)
Theorem position_always_bottom (ctx : Context) (w : World) :
  exists (sent : list Request) (entries : list Entry),
    wire (snd (run ctx w)) = (wire w ++ sent)%list
    /\ logged (snd (run ctx w)) = (logged w ++ entries)%list
    /\ Forall (fun r : Request =>
                 exists request : MoveIssueRequest,
                   Position request = "bottom"
                   /\ Body r = fst (json_Marshal request)
                   /\ Body r = spec_move_body_with
                                 (json_string (PipelineID request))) sent
    /\ Forall (fun e : Entry =>
                 exists request : MoveIssueRequest,
                   Position request = "bottom"
                   /\ fields e !! "body" = Some (VString (fst (json_Marshal request))))
              entries.
Proof.
  assert (Hnone : forall err,
             run ctx w = (Some err, w) ->
             exists (sent : list Request) (entries : list Entry),
               wire (snd (run ctx w)) = (wire w ++ sent)%list
               /\ logged (snd (run ctx w)) = (logged w ++ entries)%list
               /\ Forall (fun r : Request =>
                            exists request : MoveIssueRequest,
                              Position request = "bottom"
                              /\ Body r = fst (json_Marshal request)
                              /\ Body r = spec_move_body_with
                                            (json_string (PipelineID request)))
                         sent
               /\ Forall (fun e : Entry =>
                            exists request : MoveIssueRequest,
                              Position request = "bottom"
                              /\ fields e !! "body"
                                 = Some (VString (fst (json_Marshal request))))
                         entries).
  { intros err ->. exists [], []. cbn. rewrite !app_nil_r. now repeat split. }
  checks ctx w; eauto using run_no_token, run_bad_workspace,
                run_bad_repository, run_bad_issue, run_bad_count.
  clear Hnone.
  pose proof (run_valid ctx w issueID Hlen Hatoi Htok Hws Hrepo) as Hrun.
  cbv zeta in Hrun. rewrite Hrun. clear Hrun.
  set (request := {| PipelineID := Args_Get ctx 1; Position := "bottom" |}).
  assert (Hentry : Forall (fun e : Entry =>
                             exists request : MoveIssueRequest,
                               Position request = "bottom"
                               /\ fields e !! "body"
                                  = Some (VString (fst (json_Marshal request))))
                          [sending (spec_move_url (Context_String ctx "base-url")
                                      (Context_String ctx "workspace-id")
                                      (Context_Uint ctx "repository-id") issueID)
                                   (spec_move_body_with
                                      (json_string (Args_Get ctx 1)))]).
  { constructor; [|constructor]. exists request. split; [reflexivity|].
    cbn [fields]. rewrite lookup_insert_ne by discriminate.
    now rewrite lookup_singleton_eq. }
  destruct (url_Parse _) as [cause|].
  { eexists [], _. cbn. rewrite app_nil_r. repeat split; [constructor | exact Hentry]. }
  eexists [_], _.
  destruct (network DefaultTransport _) as [r|c];
    [destruct (ErrorFromStatusCode _)|];
    cbn; (repeat split; [|exact Hentry]);
    (constructor; [|constructor]); exists request; now repeat split.
Qed.

End Command.

(** ** Trimming keeps a number *)

Lemma space2_bytes (c1 c2 : ascii) :
  space2 c1 c2 = true -> (Str.code c1 = 194 /\ 128 <= Str.code c2)%N.
Proof.
  unfold space2. cbv zeta.
  rewrite andb_true_iff, orb_true_iff, !N.eqb_eq. lia.
Qed.

Lemma space3_bytes (c1 c2 c3 : ascii) :
  space3 c1 c2 c3 = true -> (225 <= Str.code c1 /\ 128 <= Str.code c3)%N.
Proof.
  unfold space3. cbv zeta.
  rewrite !orb_true_iff, !andb_true_iff, !orb_true_iff, !andb_true_iff,
    !N.eqb_eq, !N.leb_le.
  lia.
Qed.

Lemma TrimLeftSpace_solid (c : ascii) (r : string) :
  solid c -> TrimLeftSpace (String c r) = String c r.
Proof.
  intros [Hlt Hsp]. cbn [TrimLeftSpace]. rewrite Hsp.
  destruct r as [|c2 r2]; [reflexivity|].
  destruct (space2 c c2) eqn:E2; [apply space2_bytes in E2; lia|].
  destruct r2 as [|c3 r3]; [reflexivity|].
  destruct (space3 c c2 c3) eqn:E3; [apply space3_bytes in E3; lia|].
  reflexivity.
Qed.

Lemma trimRev_solid (c : ascii) (r : string) :
  solid c -> trimRev (String c r) = String c r.
Proof.
  intros [Hlt Hsp]. cbn [trimRev]. rewrite Hsp.
  destruct r as [|c2 r2]; [reflexivity|].
  destruct (space2 c2 c) eqn:E2; [apply space2_bytes in E2; lia|].
  destruct r2 as [|c3 r3]; [reflexivity|].
  destruct (space3 c3 c2 c) eqn:E3; [apply space3_bytes in E3; lia|].
  reflexivity.
Qed.

Lemma rev_app_last (s acc : string) (d : ascii) :
  Str.last s = Some d -> exists r, String.rev_app s acc = String d r.
Proof.
  revert acc. induction s as [|c s IH]; intros acc H; [discriminate|].
  destruct s as [|c' s'].
  - injection H as ->. now exists acc.
  - cbn [String.rev_app]. apply IH. exact H.
Qed.

Lemma rev_app_nonempty (s acc : string) :
  acc <> "" -> String.rev_app s acc <> "".
Proof.
  revert acc. induction s as [|c s IH]; intros acc H; [exact H|].
  cbn [String.rev_app]. now apply IH.
Qed.

Lemma TrimSpace_solid (c d : ascii) (r : string) :
  solid c -> Str.last (String c r) = Some d -> solid d ->
  TrimSpace (String c r) <> "".
Proof.
  intros Hc Hlast Hd. unfold TrimSpace, TrimRightSpace.
  rewrite (TrimLeftSpace_solid c r Hc).
  destruct (rev_app_last (String c r) "" d Hlast) as (r' & Hrev).
  unfold String.rev at 2. rewrite Hrev. rewrite (trimRev_solid d r' Hd).
  unfold String.rev. cbn [String.rev_app]. now apply rev_app_nonempty.
Qed.

Lemma digit_solid (c : ascii) (d : Z) : digit c = Some d -> solid c.
Proof.
  unfold digit, solid, asciiSpace. cbv zeta.
  destruct ((48 <=? Str.code c) && (Str.code c <=? 57))%N eqn:E; [|discriminate].
  intros _. apply andb_prop in E as [E1 E2].
  apply N.leb_le in E1, E2. split; [lia|].
  rewrite orb_false_iff, andb_false_iff, N.eqb_neq, !N.leb_gt. lia.
Qed.

Lemma digits_last (s : string) (maxVal acc n : Z) :
  s <> "" -> digits maxVal acc s = Value n ->
  exists c, Str.last s = Some c /\ solid c.
Proof.
  revert acc. induction s as [|c s IH]; intros acc Hne H; [contradiction|].
  cbn [digits] in H. destruct (digit c) as [d|] eqn:Hd; [|discriminate].
  cbv zeta in H. destruct (maxVal <? acc * 10 + d); [discriminate|].
  destruct s as [|c' s'].
  - exists c. split; [reflexivity | eapply digit_solid; eassumption].
  - apply (IH (acc * 10 + d)); [discriminate | exact H].
Qed.

Lemma sign_solid (c : ascii) : c = "-"%char \/ c = "+"%char -> solid c.
Proof. intros [-> | ->]; split; reflexivity. Qed.

Lemma bits_pos (sz : IntSize) :
  2 ^ bits sz = 2 * 2 ^ (bits sz - 1) /\ 0 < 2 ^ (bits sz - 1).
Proof. destruct sz; cbn; lia. Qed.

(** The value [Atoi] gives under a sign is an [int]. *)
Lemma Atoi_fits (sz : IntSize) (neg : bool) (un n : Z) (e1 e2 : NumError) :
  (if negb neg && (2 ^ (bits sz - 1) <=? un) then inr e1
   else if neg && (2 ^ (bits sz - 1) <? un) then inr e2
        else inl (if neg then - un else un)) = inl n ->
  minInt sz <= n <= maxInt sz \/ un < 0.
Proof.
  unfold minInt, maxInt. destruct (bits_pos sz) as [_ Hpos].
  destruct neg; cbn [negb andb];
    destruct (Z.ltb_spec (2 ^ (bits sz - 1)) un);
    destruct (Z.leb_spec (2 ^ (bits sz - 1)) un);
    try discriminate; intros [= <-]; lia.
Qed.

Lemma digits_nonneg (s : string) (maxVal acc n : Z) :
  0 <= acc -> digits maxVal acc s = Value n -> 0 <= n.
Proof.
  revert acc. induction s as [|c s IH]; intros acc Hacc H.
  - injection H as <-. exact Hacc.
  - cbn [digits] in H. destruct (digit c) as [d|] eqn:Hd; [|discriminate].
    cbv zeta in H. destruct (maxVal <? acc * 10 + d); [discriminate|].
    apply (IH (acc * 10 + d)); [|exact H].
    unfold digit in Hd. cbv zeta in Hd.
    destruct ((48 <=? Str.code c) && (Str.code c <=? 57))%N eqn:E;
      [|discriminate].
    injection Hd as <-. apply andb_prop in E as [E _]. apply N.leb_le in E. lia.
Qed.

(** What [Atoi] accepts starts and ends with a byte that is not white space,
    and its value is an [int]. *)
Lemma Atoi_inl (sz : IntSize) (s : string) (n : Z) :
  Atoi sz s = inl n ->
  minInt sz <= n <= maxInt sz
  /\ exists c r d, s = String c r /\ solid c
                   /\ Str.last s = Some d /\ solid d.
Proof.
  unfold Atoi. destruct s as [|c r]; [discriminate|].
  assert (Hrange : forall (neg : bool) (body : string) (un : Z),
             digits (2 ^ bits sz - 1) 0 body = Value un ->
             (if negb neg && (2 ^ (bits sz - 1) <=? un)
              then inr (ErrRange (String c r))
              else if neg && (2 ^ (bits sz - 1) <? un)
                   then inr (ErrRange (String c r))
                   else inl (if neg then - un else un)) = inl n ->
             minInt sz <= n <= maxInt sz).
  { intros neg body un Hdig H.
    apply Atoi_fits in H as [H | H]; [exact H|].
    apply digits_nonneg in Hdig; lia. }
  assert (Hsigned : forall m : Z,
             r <> "" -> digits (2 ^ bits sz - 1) 0 r = Value m ->
             c = "-"%char \/ c = "+"%char ->
             exists c0 r0 d, String c r = String c0 r0 /\ solid c0
                             /\ Str.last (String c r) = Some d /\ solid d).
  { intros m Hne Hdig Hsign.
    destruct (digits_last r _ 0 m Hne Hdig) as (d & Hlast & Hd).
    exists c, r, d. repeat split; try apply (sign_solid c Hsign); try apply Hd.
    destruct r; [contradiction | exact Hlast]. }
  destruct (Ascii.eqb_spec c "-"%char) as [Hminus|Hminus];
    [|destruct (Ascii.eqb_spec c "+"%char) as [Hplus|Hplus]].
  - destruct r as [|c' r']; [discriminate|].
    destruct (digits _ 0 (String c' r')) as [m| |] eqn:Hdig; try discriminate.
    cbv zeta. intros H. split; [exact (Hrange true _ m Hdig H)|].
    apply (Hsigned m); [discriminate | reflexivity | now left].
  - destruct r as [|c' r']; [discriminate|].
    destruct (digits _ 0 (String c' r')) as [m| |] eqn:Hdig; try discriminate.
    cbv zeta. intros H. split; [exact (Hrange false _ m Hdig H)|].
    apply (Hsigned m); [discriminate | reflexivity | now right].
  - destruct (digits _ 0 (String c r)) as [m| |] eqn:Hdig; try discriminate.
    cbv zeta. intros H. split; [exact (Hrange false _ m Hdig H)|].
    destruct (digits_last (String c r) _ 0 m ltac:(discriminate) Hdig)
      as (d & Hlast & Hd).
    exists c, r, d. repeat split; try apply Hd; try exact Hlast.
    all: cbn [digits] in Hdig; destruct (digit c) as [x|] eqn:Hx;
      [|discriminate]; apply (digit_solid c x Hx).
Qed.

Lemma Atoi_not_blank (sz : IntSize) (s : string) (n : Z) :
  Atoi sz s = inl n -> TrimSpace s <> "".
Proof.
  intros H. apply Atoi_inl in H as (_ & c & r & d & -> & Hc & Hlast & Hd).
  now apply (TrimSpace_solid c d r).
Qed.

Lemma uint_of_negative (sz : IntSize) (n : Z) :
  minInt sz <= n < 0 -> uint_of_int sz n = n + 2 ^ bits sz.
Proof.
  intros H. unfold uint_of_int, minInt in *.
  destruct (bits_pos sz) as [E Hpos].
  symmetry. apply Z.mod_unique_pos with (q := -1); lia.
Qed.

Lemma Getenv_set (w : World) (name value : string) :
  environ w !! name = Some value -> Getenv name w = (value, w).
Proof. intros E. unfold Getenv. now rewrite E. Qed.

(** C10. When ZENHUB_REPOSITORY_ID holds a negative number that [Atoi]
    accepts, the start of [main] does not end in [logrus.Fatal]: the default
    of the repository ID is the number plus two to the width of [uint], which
    is what the conversion to [uint] gives; it lies in the upper half of
    [uint] and is not zero. *)
Theorem negative_repository_default (sz : IntSize) (w : World)
        (s : string) (n : Z) :
  environ w !! ZenHubRepositoryIDEnvVar = Some s ->
  Atoi sz s = inl n ->
  n < 0 ->
  main_defaults sz w
  = (Some (default "" (environ w !! ZenHubWorkspaceIDEnvVar), n + 2 ^ bits sz), w)
  /\ uint_of_int sz n = n + 2 ^ bits sz
  /\ 2 ^ (bits sz - 1) <= n + 2 ^ bits sz < 2 ^ bits sz
  /\ n + 2 ^ bits sz <> 0.
Proof.
  intros Henv Hatoi Hneg.
  pose proof (Atoi_not_blank sz s n Hatoi) as Hblank.
  destruct (Atoi_inl sz s n Hatoi) as [Hrange _].
  assert (Huint : uint_of_int sz n = n + 2 ^ bits sz)
    by (apply uint_of_negative; lia).
  destruct (bits_pos sz) as [E Hpos]. unfold minInt in Hrange.
  repeat split; try lia; try exact Huint.
  unfold main_defaults.
  rewrite (bind_run _ _ w w (default "" (environ w !! ZenHubWorkspaceIDEnvVar)))
    by reflexivity.
  rewrite (bind_run _ _ w w s (Getenv_set w _ s Henv)).
  destruct (String.eqb_spec (TrimSpace s) ""); [contradiction|].
  cbn [negb]. rewrite Hatoi. unfold ret. now rewrite Huint.
Qed.

(** ** The command on concrete inputs *)

(** The scenario of the specification, end to end: token abc, workspace ws1,
    repository 42, issue 7, pipeline p9, and a network that answers 200. *)
Example end_to_end :
  let w' := snd (MoveIssueCommand Int64 accepts_all (answers 200)
                   (context_of ["7"; "p9"] "ws1" 42) (world_with_token "abc")) in
  fst (MoveIssueCommand Int64 accepts_all (answers 200)
         (context_of ["7"; "p9"] "ws1" 42) (world_with_token "abc")) = None
  /\ map URL (wire w')
     = ["https://api.zenhub.com/p2/workspaces/ws1/repositories/42/issues/7/moves"]
  /\ map Body (wire w') = [spec_move_body "p9"]
  /\ map (fun r => Header r !! AuthenticationHeader) (wire w') = [Some ["abc"]]
  /\ stdout w' = "Successfully moved issue 7 to pipelines p9" +:+ newline.
Proof. vm_compute. repeat split. Qed.

Lemma bad_arguments_rejected_none :
  exists err,
    MoveIssueCommand Int64 accepts_all (answers 200)
                     (context_of [] "ws1" 42) (world_with_token "abc")
    = (Some err, world_with_token "abc")
    /\ errorKind err = ArgumentError
    /\ wire (snd (MoveIssueCommand Int64 accepts_all (answers 200)
                    (context_of [] "ws1" 42) (world_with_token "abc")))
       = wire (world_with_token "abc").
Proof.
  apply (bad_arguments_rejected Int64 accepts_all (answers 200)
           (context_of [] "ws1" 42) (world_with_token "abc")).
  left. cbn. lia.
Defined.

(** C4 as stated fails: with no argument and no token, the error is the one
    of the arguments, not a configuration error. *)
Lemma blank_token_argument_error :
  environ bare_world !! ZenHubTokenEnvVar = None
  /\ MoveIssueCommand Int64 accepts_all (answers 200)
                      (context_of [] "ws1" 42) bare_world
     = (Some (BadArgCount 0), bare_world)
  /\ errorKind (BadArgCount 0) = ArgumentError
  /\ errorKind (BadArgCount 0) <> ConfigurationError.
Proof. repeat split. discriminate. Qed.

Lemma blank_token_rejected_spaces :
  exists err,
    MoveIssueCommand Int64 accepts_all (answers 200)
                     (context_of ["7"; "p9"] "ws1" 42) (world_with_token "  ")
    = (Some err, world_with_token "  ")
    /\ wire (snd (MoveIssueCommand Int64 accepts_all (answers 200)
                    (context_of ["7"; "p9"] "ws1" 42) (world_with_token "  ")))
       = wire (world_with_token "  ")
    /\ err = MissingToken /\ errorKind err = ConfigurationError.
Proof.
  destruct (blank_token_rejected Int64 accepts_all (answers 200)
              (context_of ["7"; "p9"] "ws1" 42) (world_with_token "  "))
    as (err & Hrun & Hwire & Hvalid & _).
  - right. exists "  ". split; reflexivity.
  - exists err. split; [exact Hrun|]. split; [exact Hwire|].
    apply Hvalid; [reflexivity | exists 7; reflexivity].
Defined.

(** C6 as stated fails: with a repository ID of zero and a first argument
    that is no number, the error is the one of the arguments. *)
Lemma zero_repository_argument_error :
  Context_Uint (context_of ["x"; "p9"] "ws1" 0) "repository-id" = 0
  /\ MoveIssueCommand Int64 accepts_all (answers 200)
                      (context_of ["x"; "p9"] "ws1" 0) (world_with_token "abc")
     = (Some (BadIssueID "x"), world_with_token "abc")
  /\ errorKind (BadIssueID "x") = ArgumentError
  /\ errorKind (BadIssueID "x") <> ConfigurationError.
Proof. repeat split. discriminate. Qed.

Lemma zero_repository_rejected_valid :
  exists err,
    MoveIssueCommand Int64 accepts_all (answers 200)
                     (context_of ["7"; "p9"] "ws1" 0) (world_with_token "abc")
    = (Some err, world_with_token "abc")
    /\ wire (snd (MoveIssueCommand Int64 accepts_all (answers 200)
                    (context_of ["7"; "p9"] "ws1" 0) (world_with_token "abc")))
       = wire (world_with_token "abc")
    /\ errorKind err = ConfigurationError
    /\ err = BadRepositoryID 0.
Proof.
  destruct (zero_repository_rejected Int64 accepts_all (answers 200)
              (context_of ["7"; "p9"] "ws1" 0) (world_with_token "abc"))
    as (err & Hrun & Hwire & Hvalid & _).
  - reflexivity.
  - exists err. split; [exact Hrun|]. split; [exact Hwire|].
    destruct Hvalid as [Hkind Herr]; [reflexivity | exists 7; reflexivity |].
    split; [exact Hkind|]. apply Herr; [vm_compute|cbn]; discriminate.
Defined.





Lemma status_200_succeeds_p9 :
  exists issueID,
    Atoi Int64 (Args_First (context_of ["7"; "p9"] "ws1" 42)) = inl issueID
    /\ fst (MoveIssueCommand Int64 accepts_all (answers 200)
              (context_of ["7"; "p9"] "ws1" 42) (world_with_token "abc")) = None
    /\ stdout (snd (MoveIssueCommand Int64 accepts_all (answers 200)
                      (context_of ["7"; "p9"] "ws1" 42)
                      (world_with_token "abc")))
       = stdout (world_with_token "abc") +:+ "Successfully moved issue "
         +:+ fmt_d issueID +:+ " to pipelines "
         +:+ Args_Get (context_of ["7"; "p9"] "ws1" 42) 1 +:+ newline.
Proof.
  apply (status_200_succeeds Int64 accepts_all (answers 200)
           (context_of ["7"; "p9"] "ws1" 42) (world_with_token "abc")
           (move_request "abc" (spec_move_url DefaultBaseURL "ws1" 42 7)
                         (spec_move_body "p9"))
           {| StatusCode := 200 |}).
  - reflexivity.
  - reflexivity.
  - reflexivity.
Defined.

Lemma negative_repository_default_minus5 :
  main_defaults Int64 {| environ := {[ ZenHubRepositoryIDEnvVar := "-5" ]};
                         wire := []; stdout := ""; logged := [] |}
  = (Some ("", 18446744073709551611),
     {| environ := {[ ZenHubRepositoryIDEnvVar := "-5" ]};
        wire := []; stdout := ""; logged := [] |})
  /\ uint_of_int Int64 (-5) = 18446744073709551611.
Proof.
  destruct (negative_repository_default Int64
              {| environ := {[ ZenHubRepositoryIDEnvVar := "-5" ]};
                 wire := []; stdout := ""; logged := [] |} "-5" (-5))
    as (Hrun & Huint & _).
  - reflexivity.
  - reflexivity.
  - lia.
  - split; [exact Hrun | exact Huint].
Defined.

(** On a platform of 32 bits the same value gives 4294967291; a value that
    is no number ends the process. *)
Example negative_repository_default_32 :
  fst (main_defaults Int32
         {| environ := {[ ZenHubRepositoryIDEnvVar := "-5" ]};
            wire := []; stdout := ""; logged := [] |})
  = Some ("", 4294967291)
  /\ fst (main_defaults Int32
            {| environ := {[ ZenHubRepositoryIDEnvVar := "12a" ]};
               wire := []; stdout := ""; logged := [] |}) = None.
Proof. split; reflexivity. Qed.

(** ** More on the status codes and the token *)

Lemma ErrorFromStatusCode_None (code : Z) :
  ErrorFromStatusCode code = None -> code = 200.
Proof.
  unfold ErrorFromStatusCode.
  destruct (Z.eqb_spec code 401); [discriminate|].
  destruct (Z.eqb_spec code 403); [discriminate|].
  destruct (Z.eqb_spec code 404); [discriminate|].
  destruct (Z.eqb_spec code 200); [trivial | discriminate].
Qed.

(** X1. Only the status 200 is a success: every other code, the other 2xx
    among them, gives an error. *)
Theorem ErrorFromStatusCode_nil_iff (code : Z) :
  ErrorFromStatusCode code = None <-> code = 200.
Proof.
  split; [apply ErrorFromStatusCode_None | now intros ->].
Qed.

(** X2. [GetZenHubToken] leaves the world as it is and returns either the
    trimmed value of ZENHUB_TOKEN, not empty, with no error, or the empty
    string with the error of the missing variable. *)
Theorem GetZenHubToken_result (w : World) :
  exists (token : string) (err : option error),
    GetZenHubToken w = ((token, err), w)
    /\ (err = None \/ err = Some MissingToken)
    /\ (err = None <-> token <> "")
    /\ (err = None -> token = tokenValue w).
Proof.
  destruct (decide (tokenValue w = "")) as [Hb|Hb].
  - exists "", (Some MissingToken). rewrite (GetZenHubToken_blank w Hb).
    repeat split; try (now right); try discriminate; congruence.
  - exists (tokenValue w), None. rewrite (GetZenHubToken_set w Hb).
    repeat split; try (now left); trivial.
Qed.

(** ** More on MoveIssueCommand *)

(** The checks of [MoveIssueCommand], in its order. *)
Ltac cmd_checks sz ctx w :=
  destruct (Nat.eq_dec (Args_Len ctx) 2%nat) as [Hlen|Hlen];
  [ destruct (Atoi sz (Args_First ctx)) as [issueID|nerr] eqn:Hatoi;
    [ destruct (decide (tokenValue w = "")) as [Htok|Htok];
      [ | destruct (decide (Context_String ctx "workspace-id" = ""))
            as [Hws|Hws];
          [ | destruct (Z.eq_dec (Context_Uint ctx "repository-id") 0)
                as [Hrepo|Hrepo] ] ]
    | ]
  | ].

Section Outcomes.

Variable sz : IntSize.
Variable url_Parse : string -> option string.
Variable DefaultTransport : Transport.

Local Abbreviation run := (MoveIssueCommand sz url_Parse DefaultTransport).


(** Either a check fails, and the command returns its error and leaves the
    world as it was, or all five pass. *)
Lemma run_rejects_or_passes (ctx : Context) (w : World) :
  (exists err, run ctx w = (Some err, w) /\ ~ checks_pass sz ctx w)
  \/ (exists issueID,
        Atoi sz (Args_First ctx) = inl issueID /\ checks_pass sz ctx w).
Proof.
  unfold checks_pass.
  cmd_checks sz ctx w.
  - left. eexists. split; [exact (run_no_token sz url_Parse DefaultTransport ctx w issueID Hlen Hatoi Htok)|]. tauto.
  - left. eexists. split; [exact (run_bad_workspace sz url_Parse DefaultTransport ctx w issueID Hlen Hatoi Htok Hws)|]. tauto.
  - left. eexists. split; [exact (run_bad_repository sz url_Parse DefaultTransport ctx w issueID Hlen Hatoi Htok Hws Hrepo)|]. tauto.
  - right. exists issueID. repeat split; eauto.
  - left. eexists. split; [exact (run_bad_issue sz url_Parse DefaultTransport ctx w nerr Hlen Hatoi)|].
    intros (_ & (i & Hi) & _). discriminate.
  - left. eexists. split; [exact (run_bad_count sz url_Parse DefaultTransport ctx w Hlen)|]. tauto.
Qed.


(** Past the checks: the equation of [run_valid], at hand. *)
Ltac passing ctx w issueID :=
  match goal with
  | Hpass : checks_pass _ ctx w, Hatoi : Atoi _ (Args_First ctx) = inl issueID
    |- _ =>
    let Hrun := fresh "Hrun" in
    destruct Hpass as (Hlen & _ & Htok & Hws & Hrepo);
    pose proof (run_valid sz url_Parse DefaultTransport ctx w issueID
                          Hlen Hatoi Htok Hws Hrepo) as Hrun;
    cbv zeta in Hrun
  end.


(** X5. When the command returns an error, nothing was written to standard
    output. *)
Theorem error_prints_nothing (ctx : Context) (w : World) (err : error) :
  fst (run ctx w) = Some err ->
  stdout (snd (run ctx w)) = stdout w.
Proof.
  intros Herr.
  destruct (run_rejects_or_passes ctx w)
    as [(e & Hrun & _) | (issueID & Hatoi & Hpass)].
  { now rewrite Hrun. }
  passing ctx w issueID. rewrite Hrun in Herr |- *. clear Hrun.
  destruct (url_Parse _) as [cause|]; [reflexivity|].
  destruct (network DefaultTransport _) as [resp|cause]; [|reflexivity].
  destruct (ErrorFromStatusCode (StatusCode resp)); [reflexivity|discriminate].
Qed.




(** X8. When the request is answered with a status other than 200, the
    command returns the error of [ErrorFromStatusCode] for that status,
    wrapped under the text failed to move issue between pipelines, and prints
    nothing. *)
Theorem status_error_reported (ctx : Context) (w : World)
        (req : Request) (resp : Response) :
  wire (snd (run ctx w)) = (wire w ++ [req])%list ->
  network DefaultTransport req = inl resp ->
  StatusCode resp <> 200 ->
  exists err : error,
    ErrorFromStatusCode (StatusCode resp) = Some err
    /\ fst (run ctx w) = Some (MoveFailed err)
    /\ Error (MoveFailed err)
       = "failed to move issue between pipelines: " +:+ Error err
    /\ stdout (snd (run ctx w)) = stdout w.
Proof.
  intros Hwire Hnet Hcode.
  destruct (run_rejects_or_passes ctx w)
    as [(e & Hrun & _) | (issueID & Hatoi & Hpass)].
  { rewrite Hrun in Hwire. now apply app_grows in Hwire. }
  passing ctx w issueID. rewrite Hrun in Hwire |- *. clear Hrun.
  destruct (url_Parse _) as [cause|].
  { cbn in Hwire. now apply app_grows in Hwire. }
  assert (Hreq : move_request (tokenValue w)
                   (spec_move_url (Context_String ctx "base-url")
                                  (Context_String ctx "workspace-id")
                                  (Context_Uint ctx "repository-id") issueID)
                   (spec_move_body_with (json_string (Args_Get ctx 1))) = req).
  { destruct (network DefaultTransport _) as [r|c];
      [destruct (ErrorFromStatusCode _)|];
      cbn in Hwire; now apply app_inj_tail in Hwire. }
  rewrite Hreq, Hnet.
  destruct (ErrorFromStatusCode (StatusCode resp)) as [err|] eqn:E.
  - exists err. now repeat split.
  - apply ErrorFromStatusCode_None in E. contradiction.
Qed.

(** X9. When the transport fails, the command returns that failure, wrapped
    as the error of a Post to the URL and then as a failed move, and prints
    nothing. *)
Theorem transport_error_reported (ctx : Context) (w : World)
        (req : Request) (cause : string) :
  wire (snd (run ctx w)) = (wire w ++ [req])%list ->
  network DefaultTransport req = inr cause ->
  fst (run ctx w) = Some (MoveFailed (URLError "Post" (URL req) cause))
  /\ errorKind (MoveFailed (URLError "Post" (URL req) cause)) = NetworkError
  /\ stdout (snd (run ctx w)) = stdout w.
Proof.
  intros Hwire Hnet.
  destruct (run_rejects_or_passes ctx w)
    as [(e & Hrun & _) | (issueID & Hatoi & Hpass)].
  { rewrite Hrun in Hwire. now apply app_grows in Hwire. }
  passing ctx w issueID. rewrite Hrun in Hwire |- *. clear Hrun.
  destruct (url_Parse _) as [c|].
  { cbn in Hwire. now apply app_grows in Hwire. }
  assert (Hreq : move_request (tokenValue w)
                   (spec_move_url (Context_String ctx "base-url")
                                  (Context_String ctx "workspace-id")
                                  (Context_Uint ctx "repository-id") issueID)
                   (spec_move_body_with (json_string (Args_Get ctx 1))) = req).
  { destruct (network DefaultTransport _) as [r|c];
      [destruct (ErrorFromStatusCode _)|];
      cbn in Hwire; now apply app_inj_tail in Hwire. }
  rewrite Hreq, Hnet. rewrite <- Hreq. now repeat split.
Qed.

(** X10. When the checks pass and the URL of the move does not parse, the
    command fails with that parse error and sends nothing, after it has
    logged the URL and the body. *)
Theorem unparsable_url_not_sent (ctx : Context) (w : World)
        (issueID : Z) (cause : string) :
  checks_pass sz ctx w ->
  Atoi sz (Args_First ctx) = inl issueID ->
  url_Parse (spec_move_url (Context_String ctx "base-url")
                           (Context_String ctx "workspace-id")
                           (Context_Uint ctx "repository-id") issueID)
  = Some cause ->
  exists url : string,
    fst (run ctx w) = Some (MoveFailed (URLError "parse" url cause))
    /\ wire (snd (run ctx w)) = wire w
    /\ stdout (snd (run ctx w)) = stdout w
    /\ logged (snd (run ctx w))
       = (logged w
          ++ [sending url
                (spec_move_body_with (json_string (Args_Get ctx 1)))])%list.
Proof.
  intros Hpass Hatoi Hparse.
  passing ctx w issueID. rewrite Hrun, Hparse. clear Hrun.
  eexists. now repeat split.
Qed.

(** X11. The command logs its debug entry, with the URL and the body, exactly
    when the five checks pass, whatever happens to the request afterwards;
    when a check fails it logs nothing. *)
Theorem logs_when_checks_pass (ctx : Context) (w : World) :
  (checks_pass sz ctx w ->
   exists issueID : Z,
     Atoi sz (Args_First ctx) = inl issueID
     /\ logged (snd (run ctx w))
        = (logged w
           ++ [sending (spec_move_url (Context_String ctx "base-url")
                                      (Context_String ctx "workspace-id")
                                      (Context_Uint ctx "repository-id")
                                      issueID)
                       (spec_move_body_with
                          (json_string (Args_Get ctx 1)))])%list)
  /\ (~ checks_pass sz ctx w -> logged (snd (run ctx w)) = logged w).
Proof.
  destruct (run_rejects_or_passes ctx w)
    as [(e & Hrun & Hfail) | (issueID & Hatoi & Hpass)].
  { split; [contradiction | now rewrite Hrun]. }
  split; [|contradiction]. intros _.
  exists issueID. split; [exact Hatoi|].
  passing ctx w issueID. rewrite Hrun. clear Hrun.
  destruct (url_Parse _) as [cause|]; [reflexivity|].
  destruct (network DefaultTransport _) as [resp|cause];
    [destruct (ErrorFromStatusCode (StatusCode resp))|]; reflexivity.
Qed.

End Outcomes.

(** ** More on the authenticating transport *)

(** X12. An [AuthenticationTransport] around another one: the header is
    added to, not set, so the request that reaches the innermost transport
    carries both tokens after the values it had, the outer token first. *)
Theorem RoundTrip_nested {T} `{RoundTripper T} (inner : T)
        (outerToken innerToken : string) (req : Request) (w : World) :
  exists req' : Request,
    RoundTrip {| transport := {| transport := inner;
                                 authenticationToken := innerToken |};
                 authenticationToken := outerToken |} req w
    = RoundTrip inner req' w
    /\ Method req' = Method req /\ URL req' = URL req /\ Body req' = Body req
    /\ Header req' !! AuthenticationHeader
       = Some (default [] (Header req !! AuthenticationHeader)
               ++ [outerToken; innerToken])%list
    /\ forall k : string,
        k <> AuthenticationHeader -> Header req' !! k = Header req !! k.
Proof.
  eexists. split; [reflexivity|]. cbn [Method URL Body Header].
  repeat split.
  - rewrite Header_Add_same, Header_Add_same. cbn [default from_option id].
    now rewrite <- app_assoc.
  - intros k Hk. now rewrite !Header_Add_other.
Qed.

(** ** The defaults of the flags *)

Lemma main_defaults_blank (sz : IntSize) (w : World) :
  TrimSpace (default "" (environ w !! ZenHubRepositoryIDEnvVar)) = "" ->
  main_defaults sz w
  = (Some (default "" (environ w !! ZenHubWorkspaceIDEnvVar), 0), w).
Proof.
  intros Hblank. unfold main_defaults.
  rewrite (bind_run _ _ w w (default "" (environ w !! ZenHubWorkspaceIDEnvVar)))
    by reflexivity.
  rewrite (bind_run _ _ w w
             (default "" (environ w !! ZenHubRepositoryIDEnvVar)))
    by reflexivity.
  now rewrite Hblank.
Qed.

Lemma main_defaults_set (sz : IntSize) (w : World) (v : string) :
  environ w !! ZenHubRepositoryIDEnvVar = Some v ->
  TrimSpace v <> "" ->
  main_defaults sz w
  = match Atoi sz v with
    | inl repoID =>
      (Some (default "" (environ w !! ZenHubWorkspaceIDEnvVar),
             uint_of_int sz repoID), w)
    | inr err =>
      (None,
       {| environ := environ w; wire := wire w; stdout := stdout w;
          logged := (logged w
                     ++ [{| level := FatalLevel;
                            message := "invalid value for default repository ID";
                            fields := {[ "error" := VNumError err;
                                         "name" := VString ZenHubRepositoryIDEnvVar;
                                         "value" := VString v ]} |}])%list |})
    end.
Proof.
  intros Henv Hset. unfold main_defaults.
  rewrite (bind_run _ _ w w (default "" (environ w !! ZenHubWorkspaceIDEnvVar)))
    by reflexivity.
  rewrite (bind_run _ _ w w v (Getenv_set w _ v Henv)).
  destruct (String.eqb_spec (TrimSpace v) ""); [contradiction|].
  cbn [negb]. destruct (Atoi sz v); reflexivity.
Qed.

(** X13. When ZENHUB_REPOSITORY_ID is not set, or blank once trimmed, the
    default of the repository ID is zero, the default of the workspace ID is
    ZENHUB_WORKSPACE_ID as it is, and nothing is logged. *)
Theorem repository_default_zero (sz : IntSize) (w : World) :
  environ w !! ZenHubRepositoryIDEnvVar = None
  \/ (exists v, environ w !! ZenHubRepositoryIDEnvVar = Some v
                /\ TrimSpace v = "") ->
  main_defaults sz w
  = (Some (default "" (environ w !! ZenHubWorkspaceIDEnvVar), 0), w).
Proof.
  intros H. apply main_defaults_blank.
  destruct H as [E | (v & E & Hv)]; rewrite E; [reflexivity | exact Hv].
Qed.

(** X14. When ZENHUB_REPOSITORY_ID holds a number that [Atoi] accepts and
    that is not negative, the default of the repository ID is that number. *)
Theorem repository_default_kept (sz : IntSize) (w : World)
        (s : string) (n : Z) :
  environ w !! ZenHubRepositoryIDEnvVar = Some s ->
  Atoi sz s = inl n ->
  0 <= n ->
  main_defaults sz w
  = (Some (default "" (environ w !! ZenHubWorkspaceIDEnvVar), n), w)
  /\ n <= maxInt sz.
Proof.
  intros Henv Hatoi Hpos.
  destruct (Atoi_inl sz s n Hatoi) as [Hrange _].
  split; [|lia].
  rewrite (main_defaults_set sz w s Henv (Atoi_not_blank sz s n Hatoi)), Hatoi.
  unfold uint_of_int. rewrite Z.mod_small; [reflexivity|].
  destruct (bits_pos sz) as [E Hp]. unfold maxInt in Hrange. lia.
Qed.


(** X16. The variable is trimmed for the test of blankness only, and parsed
    as it is: a value that is not blank and begins or ends with a white-space
    byte of ASCII is refused by [Atoi], so the process ends, with a fatal
    entry that holds the error, the name of the variable and its value. *)
Theorem padded_number_fatal (sz : IntSize) (w : World) (v : string) :
  environ w !! ZenHubRepositoryIDEnvVar = Some v ->
  TrimSpace v <> "" ->
  (exists c r, v = String c r /\ asciiSpace c = true)
  \/ (exists d, Str.last v = Some d /\ asciiSpace d = true) ->
  exists e : NumError,
    Atoi sz v = inr e
    /\ fst (main_defaults sz w) = None
    /\ logged (snd (main_defaults sz w))
       = (logged w
          ++ [{| level := FatalLevel;
                 message := "invalid value for default repository ID";
                 fields := {[ "error" := VNumError e;
                              "name" := VString ZenHubRepositoryIDEnvVar;
                              "value" := VString v ]} |}])%list.
Proof.
  intros Henv Hset Hpad.
  destruct (Atoi sz v) as [n|e] eqn:Hatoi.
  - exfalso.
    destruct (Atoi_inl sz v n Hatoi)
      as (_ & c & r & d & Hv & [_ Hc] & Hlast & [_ Hd]).
    destruct Hpad as [(c' & r' & Hv' & Hc') | (d' & Hlast' & Hd')];
      congruence.
  - exists e. split; [reflexivity|].
    rewrite (main_defaults_set sz w v Henv Hset), Hatoi. now split.
Qed.

(** ** From the environment to the command *)

Lemma default_context_flags (defaults : string * Z) (args : list string) :
  Context_String (default_context defaults args) "workspace-id" = fst defaults
  /\ Context_Uint (default_context defaults args) "repository-id" = snd defaults
  /\ Context_String (default_context defaults args) "base-url" = DefaultBaseURL
  /\ Args (default_context defaults args) = args.
Proof. repeat split. Qed.

(** X17. With no flag on the command line and ZENHUB_REPOSITORY_ID not set
    or blank, the command (two arguments, the first an integer, a token)
    fails without sending: for the workspace when ZENHUB_WORKSPACE_ID is not
    set, and else for the repository ID, which is zero. *)
Theorem unset_ids_rejected (sz : IntSize) (url_Parse : string -> option string)
        (dt : Transport) (w : World) (first pipelineID : string) (issueID : Z)
        (defaults : string * Z) :
  Atoi sz first = inl issueID ->
  tokenValue w <> "" ->
  environ w !! ZenHubRepositoryIDEnvVar = None
  \/ (exists v, environ w !! ZenHubRepositoryIDEnvVar = Some v
                /\ TrimSpace v = "") ->
  fst (main_defaults sz w) = Some defaults ->
  let ctx := default_context defaults [first; pipelineID] in
  (environ w !! ZenHubWorkspaceIDEnvVar = None ->
   MoveIssueCommand sz url_Parse dt ctx w = (Some (BadWorkspaceID ""), w))
  /\ (forall workspaceID,
        environ w !! ZenHubWorkspaceIDEnvVar = Some workspaceID ->
        workspaceID <> "" ->
        MoveIssueCommand sz url_Parse dt ctx w = (Some (BadRepositoryID 0), w)).
Proof.
  intros Hatoi Htok Hrepo Hmain ctx.
  rewrite main_defaults_blank in Hmain
    by (destruct Hrepo as [E | (v & E & Hv)]; rewrite E;
        [reflexivity | exact Hv]).
  injection Hmain as <-.
  split.
  - intros Hws. apply (run_bad_workspace sz url_Parse dt _ w issueID);
      try assumption; try reflexivity.
    subst ctx. cbn. now rewrite Hws.
  - intros workspaceID Hws Hne.
    apply (run_bad_repository sz url_Parse dt _ w issueID);
      try assumption; try reflexivity.
    subst ctx. cbn. now rewrite Hws.
Qed.


(** ** The token is trimmed *)

Lemma TrimLeftSpace_head (s : string) (c : ascii) :
  first_byte (TrimLeftSpace s) = Some c -> asciiSpace c = false.
Proof.
  remember (String.length s) as n eqn:Hn.
  revert s Hn. induction n as [n IH] using lt_wf_ind. intros s Hn.
  destruct s as [|c1 r1]; [discriminate|].
  cbn [TrimLeftSpace]. cbn [String.length] in Hn.
  destruct (asciiSpace c1) eqn:E1.
  { apply (IH (String.length r1)); [lia | reflexivity]. }
  destruct r1 as [|c2 r2]; [now intros [= <-]|].
  cbn [String.length] in Hn.
  destruct (space2 c1 c2).
  { apply (IH (String.length r2)); [lia | reflexivity]. }
  destruct r2 as [|c3 r3]; [now intros [= <-]|].
  cbn [String.length] in Hn.
  destruct (space3 c1 c2 c3); [|now intros [= <-]].
  apply (IH (String.length r3)); [lia | reflexivity].
Qed.

Lemma trimRev_head (r : string) (c : ascii) :
  first_byte (trimRev r) = Some c -> asciiSpace c = false.
Proof.
  remember (String.length r) as n eqn:Hn.
  revert r Hn. induction n as [n IH] using lt_wf_ind. intros r Hn.
  destruct r as [|c1 r1]; [discriminate|].
  cbn [trimRev]. cbn [String.length] in Hn.
  destruct (asciiSpace c1) eqn:E1.
  { apply (IH (String.length r1)); [lia | reflexivity]. }
  destruct r1 as [|c2 r2]; [now intros [= <-]|].
  cbn [String.length] in Hn.
  destruct (space2 c2 c1).
  { apply (IH (String.length r2)); [lia | reflexivity]. }
  destruct r2 as [|c3 r3]; [now intros [= <-]|].
  cbn [String.length] in Hn.
  destruct (space3 c3 c2 c1); [|now intros [= <-]].
  apply (IH (String.length r3)); [lia | reflexivity].
Qed.

Lemma append_cons (a : ascii) (s t : string) :
  String a s +:+ t = String a (s +:+ t).
Proof. reflexivity. Qed.

(** What [trimRev] keeps is the end of what it was given. *)
Lemma trimRev_suffix (r : string) : exists p, r = p +:+ trimRev r.
Proof.
  remember (String.length r) as n eqn:Hn.
  revert r Hn. induction n as [n IH] using lt_wf_ind. intros r Hn.
  destruct r as [|c1 r1]; [now exists ""|].
  cbn [trimRev]. cbn [String.length] in Hn.
  destruct (asciiSpace c1).
  { destruct (IH (String.length r1) ltac:(lia) r1 eq_refl) as [p Hp].
    exists (String c1 p). rewrite append_cons. now rewrite <- Hp. }
  destruct r1 as [|c2 r2]; [now exists ""|].
  cbn [String.length] in Hn.
  destruct (space2 c2 c1).
  { destruct (IH (String.length r2) ltac:(lia) r2 eq_refl) as [p Hp].
    exists (String c1 (String c2 p)). rewrite !append_cons. now rewrite <- Hp. }
  destruct r2 as [|c3 r3]; [now exists ""|].
  cbn [String.length] in Hn.
  destruct (space3 c3 c2 c1); [|now exists ""].
  destruct (IH (String.length r3) ltac:(lia) r3 eq_refl) as [p Hp].
  exists (String c1 (String c2 (String c3 p))). rewrite !append_cons.
  now rewrite <- Hp.
Qed.

Lemma last_append (p t : string) :
  t <> "" -> Str.last (p +:+ t) = Str.last t.
Proof.
  intros Ht. induction p as [|a p IH]; [reflexivity|].
  rewrite append_cons. cbn [Str.last].
  destruct (p +:+ t) eqn:E; [|exact IH].
  destruct p; [cbn in E; contradiction | discriminate].
Qed.

Lemma last_cons (a : ascii) (t : string) :
  exists d, Str.last (String a t) = Some d.
Proof.
  revert a. induction t as [|b t IH]; intros a; [now exists a|].
  destruct (IH b) as [d Hd]. exists d. exact Hd.
Qed.

Lemma first_byte_rev_app (t acc : string) :
  first_byte (String.rev_app t acc)
  = match Str.last t with Some d => Some d | None => first_byte acc end.
Proof.
  revert acc. induction t as [|a t IH]; intros acc; [reflexivity|].
  cbn [String.rev_app]. rewrite IH.
  destruct t as [|b t]; [reflexivity|].
  change (Str.last (String a (String b t))) with (Str.last (String b t)).
  destruct (last_cons b t) as [d Hd]. now rewrite Hd.
Qed.

Lemma last_rev_app (t acc : string) :
  Str.last (String.rev_app t acc)
  = match acc with EmptyString => first_byte t | _ => Str.last acc end.
Proof.
  revert acc. induction t as [|a t IH]; intros acc.
  - now destruct acc.
  - cbn [String.rev_app]. rewrite IH. now destruct acc.
Qed.

(** Trimming on the right keeps the first byte, and ends on a byte that is
    no white space. *)
Lemma TrimRightSpace_ends (x : string) (c : ascii) :
  first_byte (TrimRightSpace x) = Some c ->
  first_byte x = Some c
  /\ exists d, Str.last (TrimRightSpace x) = Some d /\ asciiSpace d = false.
Proof.
  unfold TrimRightSpace, String.rev. intros Hc.
  destruct (trimRev (String.rev_app x "")) as [|d t] eqn:Ht; [discriminate|].
  split.
  - rewrite first_byte_rev_app in Hc.
    destruct (trimRev_suffix (String.rev_app x "")) as [p Hp].
    rewrite Ht in Hp.
    assert (Hlast : Str.last (String.rev_app x "") = Str.last (String d t))
      by (rewrite Hp; now apply last_append).
    rewrite last_rev_app in Hlast. rewrite Hlast.
    destruct (last_cons d t) as [d' Hd']. now rewrite Hd' in Hc |- *.
  - exists d. split; [now rewrite last_rev_app|].
    apply trimRev_head with (r := String.rev_app x ""). now rewrite Ht.
Qed.

(** X3. A token that [GetZenHubToken] returns is not empty and neither
    begins nor ends with a white-space byte of ASCII. *)
Theorem token_is_trimmed (w : World) (token : string) :
  fst (GetZenHubToken w) = (token, None) ->
  exists c d : ascii,
    first_byte token = Some c /\ asciiSpace c = false
    /\ Str.last token = Some d /\ asciiSpace d = false.
Proof.
  intros Hget.
  destruct (decide (tokenValue w = "")) as [Hb|Hb].
  { rewrite (GetZenHubToken_blank w Hb) in Hget. discriminate. }
  rewrite (GetZenHubToken_set w Hb) in Hget. injection Hget as <-.
  unfold tokenValue, TrimSpace in *.
  set (x := TrimLeftSpace (default "" (environ w !! ZenHubTokenEnvVar))) in *.
  destruct (TrimRightSpace x) as [|c r] eqn:Hr; [contradiction|].
  destruct (TrimRightSpace_ends x c) as (Hx & d & Hd & Hsp);
    [now rewrite Hr|].
  exists c, d. rewrite Hr in Hd. repeat split; try assumption.
  now apply TrimLeftSpace_head with (s := default "" (environ w !! ZenHubTokenEnvVar)).
Qed.

(** X19. The command uses the first argument through its number only: two
    texts that [Atoi] reads as the same number (7, +7, 007) give the same
    run, request and output. *)
Theorem same_number_same_run (sz : IntSize)
        (url_Parse : string -> option string) (dt : Transport) (w : World)
        (first1 first2 pipelineID : string) (issueID : Z)
        (strings : gmap string string) (uints : gmap string Z) :
  Atoi sz first1 = inl issueID ->
  Atoi sz first2 = inl issueID ->
  MoveIssueCommand sz url_Parse dt
    {| Args := [first1; pipelineID]; StringFlags := strings;
       UintFlags := uints |} w
  = MoveIssueCommand sz url_Parse dt
      {| Args := [first2; pipelineID]; StringFlags := strings;
         UintFlags := uints |} w.
Proof.
  intros H1 H2.
  set (ctx1 := {| Args := [first1; pipelineID]; StringFlags := strings;
                  UintFlags := uints |}).
  set (ctx2 := {| Args := [first2; pipelineID]; StringFlags := strings;
                  UintFlags := uints |}).
  change (Atoi sz (Args_First ctx1) = inl issueID) in H1.
  change (Atoi sz (Args_First ctx2) = inl issueID) in H2.
  destruct (decide (tokenValue w = "")) as [Htok|Htok].
  { now rewrite (run_no_token sz url_Parse dt ctx1 w issueID eq_refl H1 Htok),
      (run_no_token sz url_Parse dt ctx2 w issueID eq_refl H2 Htok). }
  destruct (decide (Context_String ctx1 "workspace-id" = "")) as [Hws|Hws].
  { now rewrite
      (run_bad_workspace sz url_Parse dt ctx1 w issueID eq_refl H1 Htok Hws),
      (run_bad_workspace sz url_Parse dt ctx2 w issueID eq_refl H2 Htok Hws). }
  destruct (Z.eq_dec (Context_Uint ctx1 "repository-id") 0) as [Hrepo|Hrepo].
  { now rewrite
      (run_bad_repository sz url_Parse dt ctx1 w issueID eq_refl H1 Htok Hws
                          Hrepo),
      (run_bad_repository sz url_Parse dt ctx2 w issueID eq_refl H2 Htok Hws
                          Hrepo). }
  pose proof (run_valid sz url_Parse dt ctx1 w issueID eq_refl H1 Htok Hws Hrepo)
    as R1.
  pose proof (run_valid sz url_Parse dt ctx2 w issueID eq_refl H2 Htok Hws Hrepo)
    as R2.
  cbv zeta in R1, R2. rewrite R1, R2. reflexivity.
Qed.

(** ** The properties above on concrete inputs *)

Lemma ErrorFromStatusCode_nil_iff_200 : ErrorFromStatusCode 200 = None.
Proof. apply (proj2 (ErrorFromStatusCode_nil_iff 200)). reflexivity. Defined.

Lemma token_is_trimmed_abc :
  exists c d : ascii,
    first_byte "abc" = Some c /\ asciiSpace c = false
    /\ Str.last "abc" = Some d /\ asciiSpace d = false.
Proof.
  apply (token_is_trimmed (world_with_token "  abc ") "abc"). reflexivity.
Defined.


Lemma error_prints_nothing_500 :
  stdout (snd (MoveIssueCommand Int64 accepts_all (answers 500)
                 example_context example_world))
  = stdout example_world.
Proof.
  apply (error_prints_nothing Int64 accepts_all (answers 500)
           example_context example_world (MoveFailed (UnknownStatus 500))).
  reflexivity.
Defined.


Lemma status_error_reported_500 :
  exists err : error,
    ErrorFromStatusCode (StatusCode {| StatusCode := 500 |}) = Some err
    /\ fst (MoveIssueCommand Int64 accepts_all (answers 500)
              example_context example_world) = Some (MoveFailed err)
    /\ Error (MoveFailed err)
       = "failed to move issue between pipelines: " +:+ Error err
    /\ stdout (snd (MoveIssueCommand Int64 accepts_all (answers 500)
                      example_context example_world))
       = stdout example_world.
Proof.
  apply (status_error_reported Int64 accepts_all (answers 500)
           example_context example_world example_request
           {| StatusCode := 500 |}).
  - reflexivity.
  - reflexivity.
  - cbn. lia.
Defined.

Lemma transport_error_reported_refused :
  fst (MoveIssueCommand Int64 accepts_all (refuses "connection refused")
         example_context example_world)
  = Some (MoveFailed (URLError "Post" (URL example_request)
                               "connection refused"))
  /\ errorKind (MoveFailed (URLError "Post" (URL example_request)
                                     "connection refused")) = NetworkError
  /\ stdout (snd (MoveIssueCommand Int64 accepts_all
                      (refuses "connection refused")
                      example_context example_world))
     = stdout example_world.
Proof.
  apply (transport_error_reported Int64 accepts_all
           (refuses "connection refused") example_context example_world
           example_request "connection refused").
  - reflexivity.
  - reflexivity.
Defined.

Lemma example_checks_pass : checks_pass Int64 example_context example_world.
Proof.
  unfold checks_pass. split; [reflexivity|].
  split; [exists 7; reflexivity|].
  repeat split; vm_compute; discriminate.
Defined.

Lemma unparsable_url_not_sent_p9 :
  exists url : string,
    fst (MoveIssueCommand Int64 (rejects_all "invalid") (answers 200)
           example_context example_world)
    = Some (MoveFailed (URLError "parse" url "invalid"))
    /\ wire (snd (MoveIssueCommand Int64 (rejects_all "invalid") (answers 200)
                    example_context example_world))
       = wire example_world
    /\ stdout (snd (MoveIssueCommand Int64 (rejects_all "invalid")
                      (answers 200) example_context example_world))
       = stdout example_world
    /\ logged (snd (MoveIssueCommand Int64 (rejects_all "invalid")
                      (answers 200) example_context example_world))
       = (logged example_world
          ++ [sending url
                (spec_move_body_with
                   (json_string (Args_Get example_context 1)))])%list.
Proof.
  apply (unparsable_url_not_sent Int64 (rejects_all "invalid") (answers 200)
           example_context example_world 7 "invalid").
  - exact example_checks_pass.
  - reflexivity.
  - reflexivity.
Defined.

Lemma logs_when_checks_pass_p9 :
  exists issueID : Z,
    Atoi Int64 (Args_First example_context) = inl issueID
    /\ logged (snd (MoveIssueCommand Int64 accepts_all (refuses "timeout")
                      example_context example_world))
       = (logged example_world
          ++ [sending (spec_move_url
                         (Context_String example_context "base-url")
                         (Context_String example_context "workspace-id")
                         (Context_Uint example_context "repository-id")
                         issueID)
                      (spec_move_body_with
                         (json_string (Args_Get example_context 1)))])%list.
Proof.
  apply (proj1 (logs_when_checks_pass Int64 accepts_all (refuses "timeout")
                  example_context example_world)).
  exact example_checks_pass.
Defined.

Lemma repository_default_zero_unset :
  main_defaults Int64 bare_world
  = (Some (default "" (environ bare_world !! ZenHubWorkspaceIDEnvVar), 0),
     bare_world).
Proof.
  apply (repository_default_zero Int64 bare_world). left. reflexivity.
Defined.

Lemma repository_default_kept_42 :
  main_defaults Int64 (world_of {[ ZenHubRepositoryIDEnvVar := "42" ]})
  = (Some (default ""
             (environ (world_of {[ ZenHubRepositoryIDEnvVar := "42" ]})
              !! ZenHubWorkspaceIDEnvVar), 42),
     world_of {[ ZenHubRepositoryIDEnvVar := "42" ]})
  /\ 42 <= maxInt Int64.
Proof.
  apply (repository_default_kept Int64
           (world_of {[ ZenHubRepositoryIDEnvVar := "42" ]}) "42" 42).
  - reflexivity.
  - reflexivity.
  - lia.
Defined.


Lemma padded_number_fatal_space_5 :
  exists e : NumError,
    Atoi Int64 " 5" = inr e
    /\ fst (main_defaults Int64
              (world_of {[ ZenHubRepositoryIDEnvVar := " 5" ]})) = None
    /\ logged (snd (main_defaults Int64
                      (world_of {[ ZenHubRepositoryIDEnvVar := " 5" ]})))
       = (logged (world_of {[ ZenHubRepositoryIDEnvVar := " 5" ]})
          ++ [{| level := FatalLevel;
                 message := "invalid value for default repository ID";
                 fields := {[ "error" := VNumError e;
                              "name" := VString ZenHubRepositoryIDEnvVar;
                              "value" := VString " 5" ]} |}])%list.
Proof.
  apply (padded_number_fatal Int64
           (world_of {[ ZenHubRepositoryIDEnvVar := " 5" ]}) " 5").
  - reflexivity.
  - vm_compute. discriminate.
  - left. exists " "%char, "5". split; reflexivity.
Defined.

Lemma unset_ids_rejected_no_env :
  MoveIssueCommand Int64 accepts_all (answers 200)
                   (default_context ("", 0) ["7"; "p9"]) example_world
  = (Some (BadWorkspaceID ""), example_world).
Proof.
  apply (proj1 (unset_ids_rejected Int64 accepts_all (answers 200)
                  example_world "7" "p9" 7 ("", 0)
                  eq_refl
                  ltac:(vm_compute; discriminate)
                  (or_introl eq_refl)
                  eq_refl)).
  reflexivity.
Defined.


Lemma same_number_same_run_plus7 :
  MoveIssueCommand Int64 accepts_all (answers 200)
    {| Args := ["7"; "p9"]; StringFlags := StringFlags example_context;
       UintFlags := UintFlags example_context |} example_world
  = MoveIssueCommand Int64 accepts_all (answers 200)
      {| Args := ["+7"; "p9"]; StringFlags := StringFlags example_context;
         UintFlags := UintFlags example_context |} example_world.
Proof.
  apply (same_number_same_run Int64 accepts_all (answers 200) example_world
           "7" "+7" "p9" 7); reflexivity.
Defined.
